(** * Board ordering core of kanban-be: a shallow embedding of [src/index.js]

    The server keeps two tables, containers and items, behind a Prisma
    client, exposes them over Express routes and mirrors reorders over a
    socket.io channel.  This development embeds the handlers of
    [src/index.js] as functions in a small state-and-exception monad over
    the "world" the handlers act on (the database, the set of connected
    sockets and the messages emitted so far), and proves or refutes the
    statements of the specification about them.

    Conventions.
    - Request payloads are dynamically typed in the source; they are
      embedded as [value], a JSON tree extended with [undefined].
    - Table rows are records; a table is a [gmap] from the primary key.
    - Positions are JavaScript numbers holding integers; they are embedded
      as [Z].  A position is written only when it is an integer that a
      JavaScript number holds exactly and that is in the range, [fits], of
      the [position] column; the client refuses any other.  Within these
      bounds the arithmetic of the handlers is exact, so no rounding is
      modelled.
    - The Prisma client, Express and express-validator are libraries, not
      part of the repository.  What the handlers rely on is modelled in
      the modules [Prisma] and [Validator] below, with the modelling
      choices written next to each definition.
    - The two [DELETE] routes answer without a body; they are embedded
      after the other routes, with a reply type of their own.  What the
      schema says about the items of a deleted container is a parameter.
    - The Prisma schema is not part of the sources.  Whether the foreign
      key from [Item.containerId] to [Container.id] is enforced by the
      database is therefore a parameter, [fk], of every operation that
      could observe it, and the range [fits] of the [position] columns is
      carried by the store; the examples take the 32-bit signed range. *)

From Stdlib Require Import ZArith Ascii String.
From stdpp Require Import gmap strings list fin_maps sorting pretty.

Local Open Scope Z_scope.
Local Set Warnings "-register-all".

(** ** Dynamically typed values *)

Inductive value : Type :=
| VUndefined
| VNull
| VBool (b : bool)
| VNum (n : Z)
| VStr (s : string)
| VArr (elems : list value)
| VObj (fields : list (string * value)).

(** Reading an own property; only objects built by the JSON parser carry
    the keys the handlers read ([containers], [id], [items], [position],
    [title], [description], [containerId]). *)
Fixpoint assoc (k : string) (fields : list (string * value)) : value :=
  match fields with
  | [] => VUndefined
  | (k', v) :: rest => if decide (k' = k) then v else assoc k rest
  end.

(** ** Rows and tables *)

Record Container : Type := mkContainer {
  container_id : string;
  container_title : string;
  container_description : option string;
  container_position : Z
}.

Record Item : Type := mkItem {
  item_id : string;
  item_title : string;
  item_position : Z;
  item_containerId : string
}.

(** The database.  [fits] is the range of the two [position] columns:
    the integers that the column type declared in the schema holds.  No
    operation changes it. *)
Record Store : Type := mkStore {
  containers : gmap string Container;
  items : gmap string Item;
  fits : Z -> bool
}.

(** One message handed to one socket. *)
Inductive payload : Type :=
| Snapshot (data : list (Container * list Item)).

Record Emission : Type := mkEmission {
  em_socket : nat;
  em_event : string;
  em_payload : payload
}.

Record World : Type := mkWorld {
  db : Store;
  sockets : list nat;
  outbox : list Emission
}.

Definition set_db (s : Store) (w : World) : World :=
  mkWorld s (sockets w) (outbox w).

Definition set_items (m : gmap string Item) (s : Store) : Store :=
  mkStore (containers s) m (fits s).

Definition set_containers (m : gmap string Container) (s : Store) : Store :=
  mkStore m (items s) (fits s).

(** ** Exceptions and the handler monad *)

Inductive error : Type :=
| TypeError                 (* thrown by the JavaScript runtime *)
| PrismaValidationError     (* the client rejects the query arguments *)
| RecordNotFound            (* P2025: the row to update does not exist *)
| UniqueConstraintFailed    (* P2002 *)
| ForeignKeyConstraintFailed (* P2003 *).

Definition M (A : Type) : Type := World -> (error + A) * World.

Definition ret {A} (a : A) : M A := fun w => (inr a, w).

Definition throw {A} (e : error) : M A := fun w => (inl e, w).

Definition bind {A B} (m : M A) (k : A -> M B) : M B :=
  fun w =>
    match m w with
    | (inl e, w') => (inl e, w')
    | (inr a, w') => k a w'
    end.

Notation "'let!' x ':=' m 'in' k" := (bind m (fun x => k))
  (at level 10, x pattern, m at level 100, k at level 200).
Notation "m ';;' k" := (bind m (fun _ => k))
  (at level 100, k at level 200, right associativity).

(** [try { body } catch (error) { handler }] *)
Definition try_catch {A} (body : M A) (handler : error -> M A) : M A :=
  fun w =>
    match body w with
    | (inl e, w') => handler e w'
    | (inr a, w') => (inr a, w')
    end.

Definition get_db : M Store := fun w => (inr (db w), w).

Definition put_db (s : Store) : M unit := fun w => (inr tt, set_db s w).

(** [for (const x of xs) { body x }] over an already unfolded iterable. *)
Fixpoint for_each {A} (xs : list A) (body : A -> M unit) : M unit :=
  match xs with
  | [] => ret tt
  | x :: rest => body x;; for_each rest body
  end.

(** ** JavaScript runtime behaviour the handlers depend on *)

Module JS.

Fixpoint chars (s : string) : list value :=
  match s with
  | EmptyString => []
  | String a rest => VStr (String a EmptyString) :: chars rest
  end.

(** The iteration protocol of [for ... of]: arrays yield their elements,
    strings their characters, anything else parsed from JSON is not
    iterable. *)
Definition iterate (v : value) : M (list value) :=
  match v with
  | VArr elems => ret elems
  | VStr s => ret (chars s)
  | _ => throw TypeError
  end.

(** [v.k] and [const { k } = v]: reading a property of [undefined] or
    [null] throws; primitives and arrays have none of the keys read by
    the handlers. *)
Definition prop (k : string) (v : value) : M value :=
  match v with
  | VUndefined | VNull => throw TypeError
  | VObj fields => ret (assoc k fields)
  | _ => ret VUndefined
  end.

End JS.

(** ** The Prisma client, as far as the handlers use it *)

Module Prisma.

(** How the client reads one entry of [data]: a key holding [undefined]
    is left out of the query, a value of the column's type is written,
    anything else makes the client throw before the database is reached.
    (The nested update syntax, [{ set: ... }] and the like, is not
    modelled; no statement below depends on how it is classified.) *)
Inductive input (A : Type) : Type :=
| Omitted
| Given (a : A)
| Rejected.
Arguments Omitted {A}.
Arguments Given {A} a.
Arguments Rejected {A}.

Definition string_input (v : value) : input string :=
  match v with
  | VUndefined => Omitted
  | VStr s => Given s
  | _ => Rejected
  end.

(** The integers a JavaScript number holds exactly
    ([Number.isSafeInteger]): those strictly between [-2^53] and [2^53]. *)
Definition safe_integer (n : Z) : bool := (- 2 ^ 53 <? n) && (2 ^ 53 >? n).

(** The positions that can be written: the integers that reach the client
    as exact numbers and are in the range of the column. *)
Definition writable (s : Store) (n : Z) : bool := safe_integer n && fits s n.

(** An integer is written when it is one of [accepted]; the query fails
    on one that is not, as on a value of another type. *)
Definition int_input (accepted : Z -> bool) (v : value) : input Z :=
  match v with
  | VUndefined => Omitted
  | VNum n => if accepted n then Given n else Rejected
  | _ => Rejected
  end.

Definition optional_string_input (v : value) : input (option string) :=
  match v with
  | VUndefined => Omitted
  | VNull => Given None
  | VStr s => Given (Some s)
  | _ => Rejected
  end.

Definition is_rejected {A} (i : input A) : bool :=
  match i with Rejected => true | _ => false end.

Definition write {A} (i : input A) (old : A) : A :=
  match i with Given a => a | _ => old end.

(** [orderBy: { position: 'asc' }] and [orderBy: { position: 'desc' }].
    The database leaves the order of rows with equal positions open; the
    model fixes it by a stable sort of the rows in key order. *)
Definition asc {A} (key : A -> Z) : relation A := fun a b => key a <= key b.

Definition desc {A} (key : A -> Z) : relation A := fun a b => key b <= key a.

#[global] Instance asc_dec {A} (key : A -> Z) a b : Decision (asc key a b).
Proof. unfold asc. apply _. Defined.

#[global] Instance desc_dec {A} (key : A -> Z) a b : Decision (desc key a b).
Proof. unfold desc. apply _. Defined.

Definition orderBy_asc {A} (key : A -> Z) (rows : list A) : list A :=
  merge_sort (asc key) rows.

Definition orderBy_desc {A} (key : A -> Z) (rows : list A) : list A :=
  merge_sort (desc key) rows.

Definition rows {A} (table : gmap string A) : list A :=
  (map_to_list table).*2.

Definition items_of (s : Store) (cid : string) : list Item :=
  orderBy_asc item_position
    (filter (fun it => item_containerId it = cid) (rows (items s))).

(** The rows selected by [{ include: { items: { orderBy: { position:
    'asc' } } }, orderBy: { position: 'asc' } }]. *)
Definition board (s : Store) : list (Container * list Item) :=
  map (fun c => (c, items_of s (container_id c)))
      (orderBy_asc container_position (rows (containers s))).

(** [prisma.container.findMany({ include: ..., orderBy: ... })] *)
Definition container_findMany : M (list (Container * list Item)) :=
  let! s := get_db in
  ret (board s).

(** [prisma.container.findFirst({ orderBy: { position: 'desc' } })] *)
Definition container_findFirst_last : M (option Container) :=
  let! s := get_db in
  ret (head (orderBy_desc container_position (rows (containers s)))).

(** [prisma.item.findFirst({ where: { containerId }, orderBy: { position:
    'desc' } })] *)
Definition item_findFirst_last (containerId : string) : M (option Item) :=
  let! s := get_db in
  ret (head (orderBy_desc item_position
               (filter (fun it => item_containerId it = containerId)
                       (rows (items s))))).

Section Schema.

(** Whether the database enforces [Item.containerId -> Container.id]. *)
Variable fk : bool.

Definition fk_violation (s : Store) (c : input string) : bool :=
  match c with
  | Given cid => fk && bool_decide (containers s !! cid = None)
  | _ => false
  end.

(** [prisma.container.create({ data: { id, title, description,
    position } })]; the arguments are checked against the column types,
    the position against the range of its column, before the row is
    inserted. *)
Definition container_create (id : string) (title description : value)
    (position : Z) : M Container :=
  match string_input title, optional_string_input description with
  | Given t, (Omitted | Given _) as d =>
      let! s := get_db in
      if writable s position
      then
        match containers s !! id with
        | Some _ => throw UniqueConstraintFailed
        | None =>
            let c := mkContainer id t (write d None) position in
            put_db (set_containers (<[id := c]> (containers s)) s);;
            ret c
        end
      else throw PrismaValidationError
  | _, _ => throw PrismaValidationError
  end.

(** [prisma.item.create({ data: { id, title, position, containerId } })] *)
Definition item_create (id : string) (title : value) (position : Z)
    (containerId : string) : M Item :=
  match string_input title with
  | Given t =>
      let! s := get_db in
      if writable s position
      then
        match items s !! id with
        | Some _ => throw UniqueConstraintFailed
        | None =>
            if fk_violation s (Given containerId)
            then throw ForeignKeyConstraintFailed
            else
              let it := mkItem id t position containerId in
              put_db (set_items (<[id := it]> (items s)) s);;
              ret it
        end
      else throw PrismaValidationError
  | _ => throw PrismaValidationError
  end.

(** [prisma.container.update({ where: { id }, data: { title,
    description, position } })]; the arguments are checked against the
    column types before the row is looked up. *)
Definition container_update (id : value) (title description position : value)
    : M Container :=
  let t := string_input title in
  let d := optional_string_input description in
  match id with
  | VStr id =>
      let! s := get_db in
      let p := int_input (writable s) position in
      if is_rejected t || is_rejected d || is_rejected p
      then throw PrismaValidationError
      else
        match containers s !! id with
        | None => throw RecordNotFound
        | Some c =>
            let c' := mkContainer (container_id c)
                        (write t (container_title c))
                        (write d (container_description c))
                        (write p (container_position c)) in
            put_db (set_containers (<[id := c']> (containers s)) s);;
            ret c'
        end
  | _ => throw PrismaValidationError
  end.

(** [prisma.item.update({ where: { id }, data: { title, position,
    containerId } })]; a key missing from [data] is passed as
    [VUndefined]. *)
Definition item_update (id : value) (title position containerId : value)
    : M Item :=
  let t := string_input title in
  let c := string_input containerId in
  match id with
  | VStr id =>
      let! s := get_db in
      let p := int_input (writable s) position in
      if is_rejected t || is_rejected p || is_rejected c
      then throw PrismaValidationError
      else
        match items s !! id with
        | None => throw RecordNotFound
        | Some it =>
            if fk_violation s c
            then throw ForeignKeyConstraintFailed
            else
              let it' := mkItem (item_id it)
                           (write t (item_title it))
                           (write p (item_position it))
                           (write c (item_containerId it)) in
              put_db (set_items (<[id := it']> (items s)) s);;
              ret it'
        end
  | _ => throw PrismaValidationError
  end.

End Schema.

(** [prisma.$transaction(async (prisma) => { body })]: the writes of
    [body] are committed when it returns and discarded when it throws;
    the exception is passed on to the caller. *)
Definition transaction {A} (body : M A) : M A :=
  fun w =>
    match body w with
    | (inl e, w') => (inl e, set_db (db w) w')
    | (inr a, w') => (inr a, w')
    end.

End Prisma.

(** ** express-validator chains *)

Module Validator.

(** Where a chain finds its field: a missing key, or a body that is not
    an object, reads as [undefined]. *)
Definition select (k : string) (body : value) : value :=
  match body with
  | VObj fields => assoc k fields
  | _ => VUndefined
  end.

(** [isString()] looks at the type of the value itself. *)
Definition isString (v : value) : bool :=
  match v with VStr _ => true | _ => false end.

(** The standard validators work on the text of the value; an array is
    checked element by element.  Compound elements are given the text of
    a plain object.  (The text of a number is its decimal digits; from
    [10^21] on a number prints in exponent form instead, which matters to
    [isInt] alone and is handled there: the other validators are only
    chained behind [isString], which refuses every number.) *)
Definition toString (v : value) : string :=
  match v with
  | VStr s => s
  | VNum n => pretty n
  | VBool true => "true"
  | VBool false => "false"
  | VUndefined | VNull => ""
  | VArr _ | VObj _ => "[object Object]"
  end.

Definition standard (p : string -> bool) (v : value) : bool :=
  match v with
  | VArr elems => forallb (fun e => p (toString e)) elems
  | _ => p (toString v)
  end.

Definition is_digit (a : ascii) : bool :=
  (48 <=? nat_of_ascii a)%nat && (nat_of_ascii a <=? 57)%nat.

Fixpoint all_digits (s : string) : bool :=
  match s with
  | EmptyString => true
  | String a rest => is_digit a && all_digits rest
  end.

(** One digit or more; leading zeros are allowed, as [isInt()] allows
    them when called without options. *)
Definition unsigned_int (s : string) : bool :=
  match s with
  | EmptyString => false
  | String a rest => is_digit a && all_digits rest
  end.

(** The pattern of [isInt()]: an optional sign in front of digits. *)
Definition int_text (s : string) : bool :=
  match s with
  | EmptyString => false
  | String a rest =>
      if Ascii.eqb a "-"%char || Ascii.eqb a "+"%char then unsigned_int rest
      else unsigned_int s
  end.

(** An integer read from JSON prints as its decimal digits below [10^21]
    and in exponent form, which the pattern refuses, from there on. *)
Definition int_value (v : value) : bool :=
  match v with
  | VNum n => Z.abs n <? 10 ^ 21
  | _ => int_text (toString v)
  end.

Definition isInt (v : value) : bool :=
  match v with
  | VArr elems => forallb int_value elems
  | _ => int_value v
  end.

Definition notEmpty : value -> bool :=
  standard (fun s => negb (bool_decide (s = EmptyString))).

Definition isLength (min max : nat) : value -> bool :=
  standard (fun s => (min <=? String.length s)%nat && (String.length s <=? max)%nat).

(** A chain runs all of its validators and reports one error, carrying
    the name of the field, for each one that fails. *)
Definition chain (field : string) (v : value) (validators : list (value -> bool))
    : list string :=
  map (fun _ => field) (filter (fun p => p v = false) validators).

(** [.optional()]: nothing is checked when the field is [undefined]. *)
Definition optional (field : string) (v : value) (validators : list (value -> bool))
    : list string :=
  match v with
  | VUndefined => []
  | _ => chain field v validators
  end.

End Validator.

(** ** Responses *)

Inductive json : Type :=
| ErrorJson (error : string)
| ErrorsJson (errors : list string)
| MessageJson (message : string)
| ContainerJson (c : Container)
| ContainerItemsJson (c : Container) (its : list Item)
| ContainersJson (cs : list (Container * list Item))
| ItemJson (i : Item).

Record Response : Type := mkResponse {
  status : Z;
  body : json
}.

(** ** [src/index.js] *)

Fixpoint remove_dashes (s : string) : string :=
  match s with
  | EmptyString => EmptyString
  | String a rest =>
      if Ascii.eqb a "-"%char then remove_dashes rest else String a (remove_dashes rest)
  end.

(** [generateUUID]; the argument is what [uuidv4()] returned. *)
Definition generateUUID (uuid : string) : string :=
  substring 0 8 (remove_dashes uuid).

(** The [validate] middleware, given the errors the chains in front of it
    collected. *)
Definition validate (errors : list string) (next : M Response) : M Response :=
  match errors with
  | [] => next
  | _ :: _ => ret (mkResponse 400 (ErrorsJson errors))
  end.

(** [param('id').isString().isLength({ min: 5, max: 8 })], the chain in
    front of every route that takes [:id]. *)
Definition id_param (id : string) : list string :=
  Validator.chain "id" (VStr id) [Validator.isString; Validator.isLength 5 8].

(** [io.emit(event, data)]: one message to every connected socket. *)
Definition io_emit (event : string) (data : payload) : M unit :=
  fun w =>
    (inr tt,
     mkWorld (db w) (sockets w)
             (outbox w ++ map (fun sk => mkEmission sk event data) (sockets w))).

(** [socket.emit(event, data)]: one message to this socket. *)
Definition socket_emit (socket : nat) (event : string) (data : payload) : M unit :=
  fun w =>
    (inr tt, mkWorld (db w) (sockets w) (outbox w ++ [mkEmission socket event data])).

(** A handler that is suspended at an [await]: either it has finished, or
    its next database call is waiting to be run.  Between two calls of one
    handler the event loop may run calls of other handlers. *)
Inductive task (A : Type) : Type :=
| Done (a : A)
| Await (call : World -> task A * World).
Arguments Done {A} a.
Arguments Await {A} call.

(** Running a suspended handler up to its next [await]. *)
Definition resume {A} (t : task A) (w : World) : task A * World :=
  match t with
  | Done a => (Done a, w)
  | Await call => call w
  end.

Section Server.

Variable fk : bool.

(** [app.get('/api/containers', ...)] *)
Definition get_containers : M Response :=
  try_catch
    (let! containers := Prisma.container_findMany in
     ret (mkResponse 200 (ContainersJson containers)))
    (fun _ => ret (mkResponse 500 (ErrorJson "Error fetching containers"))).

(** [app.get('/api/containers/:id', ...)] *)
Definition get_containers_id (id : string) : M Response :=
  validate (id_param id)
    (try_catch
       (let! s := get_db in
        match containers s !! id with
        | None => ret (mkResponse 404 (ErrorJson "Container not found"))
        | Some container =>
            ret (mkResponse 200
                   (ContainerItemsJson container
                      (Prisma.items_of s (container_id container))))
        end)
       (fun _ => ret (mkResponse 500 (ErrorJson "Error fetching container")))).

(** [app.post('/api/containers', ...)]; [uuid] is the result of the call
    of [uuidv4()] made by this request. *)
Definition post_containers (uuid : string) (body : value) : M Response :=
  validate
    (Validator.chain "title" (Validator.select "title" body)
       [Validator.isString; Validator.notEmpty]
     ++ Validator.optional "description" (Validator.select "description" body)
          [Validator.isString])
    (let! title := JS.prop "title" body in
     let! description := JS.prop "description" body in
     try_catch
       (let! lastContainer := Prisma.container_findFirst_last in
        let newPosition :=
          match lastContainer with
          | Some c => container_position c + 1
          | None => 0
          end in
        let! newContainer :=
          Prisma.container_create ("container-" +:+ generateUUID uuid)
            title description newPosition in
        ret (mkResponse 201 (ContainerJson newContainer)))
       (fun _ => ret (mkResponse 500 (ErrorJson "Error creating container")))).

(** The chains in front of [app.patch('/api/containers/:id', ...)]. *)
Definition patch_containers_id_chains (id : string) (body : value) : list string :=
  id_param id
  ++ Validator.optional "title" (Validator.select "title" body)
       [Validator.isString]
  ++ Validator.optional "description" (Validator.select "description" body)
       [Validator.isString]
  ++ Validator.optional "position" (Validator.select "position" body)
       [Validator.isInt].

(** [app.patch('/api/containers/:id', ...)] *)
Definition patch_containers_id (id : string) (body : value) : M Response :=
  validate (patch_containers_id_chains id body)
    (let! title := JS.prop "title" body in
     let! description := JS.prop "description" body in
     let! position := JS.prop "position" body in
     try_catch
       (let! updatedContainer :=
          Prisma.container_update (VStr id) title description position in
        ret (mkResponse 200 (ContainerJson updatedContainer)))
       (fun _ => ret (mkResponse 500 (ErrorJson "Error updating container")))).

(** [app.post('/api/containers/:containerId/items', ...)] *)
Definition post_containers_items (uuid : string) (containerId : string)
    (body : value) : M Response :=
  validate
    (Validator.chain "containerId" (VStr containerId) [Validator.isString]
     ++ Validator.chain "title" (Validator.select "title" body)
          [Validator.isString; Validator.notEmpty])
    (let! title := JS.prop "title" body in
     try_catch
       (let! lastItem := Prisma.item_findFirst_last containerId in
        let newPosition :=
          match lastItem with
          | Some it => item_position it + 1
          | None => 0
          end in
        let! newItem :=
          Prisma.item_create fk ("item-" +:+ generateUUID uuid)
            title newPosition containerId in
        ret (mkResponse 201 (ItemJson newItem)))
       (fun _ => ret (mkResponse 500 (ErrorJson "Error creating item")))).

(** The chains in front of [app.patch('/api/items/:id', ...)]. *)
Definition patch_items_id_chains (id : string) (body : value) : list string :=
  id_param id
  ++ Validator.optional "title" (Validator.select "title" body)
       [Validator.isString]
  ++ Validator.optional "position" (Validator.select "position" body)
       [Validator.isInt]
  ++ Validator.optional "containerId" (Validator.select "containerId" body)
       [Validator.isString; Validator.isLength 5 8].

(** [app.patch('/api/items/:id', ...)] *)
Definition patch_items_id (id : string) (body : value) : M Response :=
  validate (patch_items_id_chains id body)
    (let! title := JS.prop "title" body in
     let! position := JS.prop "position" body in
     let! containerId := JS.prop "containerId" body in
     try_catch
       (let! updatedItem :=
          Prisma.item_update fk (VStr id) title position containerId in
        ret (mkResponse 200 (ItemJson updatedItem)))
       (fun _ => ret (mkResponse 500 (ErrorJson "Error updating item")))).

(** The callback both reorder entry points hand to [prisma.$transaction]:
    two nested [for ... of] loops around [prisma.item.update]. *)
Definition reorder_loops (containers : value) : M unit :=
  let! cs := JS.iterate containers in
  for_each cs (fun container =>
    let! id := JS.prop "id" container in
    let! items := JS.prop "items" container in
    let! its := JS.iterate items in
    for_each its (fun item =>
      let! item_id := JS.prop "id" item in
      let! item_position := JS.prop "position" item in
      Prisma.item_update fk item_id VUndefined item_position id;;
      ret tt)).

(** [app.patch('/api/containers-order-items', validate, ...)]: the
    [validate] middleware runs with no chain in front of it. *)
Definition patch_containers_order_items (body : value) : M Response :=
  validate []
    (let! containers := JS.prop "containers" body in
     try_catch
       (Prisma.transaction (reorder_loops containers);;
        ret (mkResponse 200 (MessageJson "Items order updated successfully")))
       (fun _ => ret (mkResponse 500 (ErrorJson "Error updating items order")))).

(** [socket.on('requestInitialData', ...)] *)
Definition on_requestInitialData (socket : nat) : M unit :=
  let! containers := Prisma.container_findMany in
  socket_emit socket "initialData" (Snapshot containers).

(** [socket.on('updatedItems', ...)]; there is no [try] around the
    transaction, an exception leaves the handler. *)
Definition on_updatedItems (containers : value) : M unit :=
  Prisma.transaction (reorder_loops containers);;
  let! newData := Prisma.container_findMany in
  io_emit "dataUpdated" (Snapshot newData).

(** The item-creating route again, cut at its two [await]s, for runs in
    which the event loop serves several requests at once. *)
Definition post_containers_items_task (uuid : string) (containerId : string)
    (body : value) : task (error + Response) :=
  match Validator.chain "containerId" (VStr containerId) [Validator.isString]
        ++ Validator.chain "title" (Validator.select "title" body)
             [Validator.isString; Validator.notEmpty] with
  | (_ :: _) as errors => Done (inr (mkResponse 400 (ErrorsJson errors)))
  | [] =>
      let failed := Done (inr (mkResponse 500 (ErrorJson "Error creating item"))) in
      Await (fun w =>
        match JS.prop "title" body w with
        | (inl e, w) => (Done (inl e), w)
        | (inr title, w) =>
            match Prisma.item_findFirst_last containerId w with
            | (inl _, w) => (failed, w)
            | (inr lastItem, w) =>
                let newPosition :=
                  match lastItem with
                  | Some it => item_position it + 1
                  | None => 0
                  end in
                (Await (fun w =>
                   match Prisma.item_create fk ("item-" +:+ generateUUID uuid)
                           title newPosition containerId w with
                   | (inl _, w) => (failed, w)
                   | (inr newItem, w) =>
                       (Done (inr (mkResponse 201 (ItemJson newItem))), w)
                   end), w)
            end
        end)
  end.

End Server.

(** Serving requests one after the other: a handler runs to its end before
    the next one starts.  Two resumptions are enough for every task of this
    file. *)
Definition run_alone {A} (t : task A) (w : World) : task A * World :=
  let '(t1, w1) := resume t w in resume t1 w1.

(** A run of the event loop: [schedule] names, step by step, the suspended
    handler whose pending call is served next. *)
Fixpoint event_loop {A} (schedule : list nat) (tasks : list (task A)) (w : World)
    : list (task A) * World :=
  match schedule with
  | [] => (tasks, w)
  | i :: rest =>
      match tasks !! i with
      | None => event_loop rest tasks w
      | Some t =>
          let '(t', w') := resume t w in
          event_loop rest (<[i := t']> tasks) w'
      end
  end.

(** * Vocabulary of the statements *)

(** ** Reorder batches *)

(** A batch of the shape the reorder contract describes: containers, each
    with the items it is to hold and their positions. *)
Definition batch : Type := list (string * list (string * Z)).

Definition encode_item (i : string * Z) : value :=
  VObj [("id", VStr i.1); ("position", VNum i.2)].

Definition encode_container (c : string * list (string * Z)) : value :=
  VObj [("id", VStr c.1); ("items", VArr (map encode_item c.2))].

Definition encode_batch (B : batch) : value :=
  VArr (map encode_container B).

(** The single-row updates of a batch in the order the loops issue them:
    item id, enclosing container id, position. *)
Definition updates (B : batch) : list (string * string * Z) :=
  flat_map (fun c => map (fun i => (i.1, c.1, i.2)) c.2) B.

Definition referenced (B : batch) (iid : string) : Prop :=
  exists cid p, (iid, cid, p) ∈ updates B.

(** Every item id of the batch and every container id enclosing one exists. *)
Definition valid_batch (s : Store) (B : batch) : Prop :=
  forall iid cid p, (iid, cid, p) ∈ updates B ->
    is_Some (items s !! iid) /\ is_Some (containers s !! cid).

(** Every position of the batch can be written: it is an exact integer
    in the range of the column. *)
Definition fitting_batch (s : Store) (B : batch) : Prop :=
  forall iid cid p, (iid, cid, p) ∈ updates B -> Prisma.writable s p = true.

(** The entry of the batch that is applied last to item [k]. *)
Fixpoint last_entry (us : list (string * string * Z)) (k : string)
    : option (string * Z) :=
  match us with
  | [] => None
  | (iid, cid, p) :: rest =>
      match last_entry rest k with
      | Some e => Some e
      | None => if decide (iid = k) then Some (cid, p) else None
      end
  end.

Definition moved (e : string * Z) (it : Item) : Item :=
  mkItem (item_id it) (item_title it) e.2 e.1.

Definition move_row (m : gmap string Item) (u : string * string * Z)
    : gmap string Item :=
  alter (moved (u.1.2, u.2)) u.1.1 m.

(** The primary key of a row is the key it is stored under. *)
Definition keyed (s : Store) : Prop :=
  (forall k it, items s !! k = Some it -> item_id it = k) /\
  (forall k c, containers s !! k = Some c -> container_id c = k).

(** An item is shown under container [cid] in a snapshot. *)
Definition shown (snap : list (Container * list Item)) (cid : string) (it : Item)
    : Prop :=
  exists c its, (c, its) ∈ snap /\ container_id c = cid /\ it ∈ its.

(** One iteration of the inner loop on a well-shaped entry. *)
Definition move (fk : bool) (u : string * string * Z) : M unit :=
  Prisma.item_update fk (VStr u.1.1) VUndefined (VNum u.2) (VStr u.1.2);;
  ret tt.

(** The body of a reorder request carrying batch [B]. *)
Definition reorder_request (B : batch) : value :=
  VObj [("containers", encode_batch B)].

(** The range of a 32-bit signed column, the one the examples take for
    [position]. *)
Definition int32 (n : Z) : bool := (- 2 ^ 31 <=? n) && (2 ^ 31 >? n).

(** The board of the worked example: container [A] holds [i1] and [i2],
    container [B] holds [i3]; two sockets are connected. *)
Definition example_store : Store :=
  mkStore
    (<["A" := mkContainer "A" "To do" None 0]>
       (<["B" := mkContainer "B" "Done" None 1]> ∅))
    (<["i1" := mkItem "i1" "one" 0 "A"]>
       (<["i2" := mkItem "i2" "two" 1 "A"]>
          (<["i3" := mkItem "i3" "three" 0 "B"]> ∅)))
    int32.

Definition example_world : World := mkWorld example_store [1%nat; 2%nat] [].

(** Move [i3] in front of [i1] and [i2] in container [A]. *)
Definition example_batch : batch :=
  [("A", [("i3", 0); ("i1", 1); ("i2", 2)]); ("B", [])].

(** A batch that lists [i1] twice, with two positions. *)
Definition duplicate_batch : batch :=
  [("A", [("i1", 0); ("i1", 1)])].

Definition reorder_ack : Response :=
  mkResponse 200 (MessageJson "Items order updated successfully").

Definition reorder_failure : Response :=
  mkResponse 500 (ErrorJson "Error updating items order").

(** The world a valid batch leaves behind. *)
Definition reordered (B : batch) (w : World) : World :=
  set_db (set_items (foldl move_row (items (db w)) (updates B)) (db w)) w.

(** A batch that refers to an item that is not in the store. *)
Definition dangling_batch : batch :=
  [("A", [("i2", 0); ("i9", 1); ("i1", 2)])].

(** A reorder body without the [containers] key, and one whose only entry
    gives no position. *)
Definition body_without_containers : value := VObj [].

Definition body_without_position : value :=
  VObj [("containers",
         VArr [VObj [("id", VStr "B");
                     ("items", VArr [VObj [("id", VStr "i1")]])]])].

(** The message [io.emit('dataUpdated', newData)] hands to socket [sk]. *)
Definition dataUpdated (s : Store) (sk : nat) : Emission :=
  mkEmission sk "dataUpdated" (Snapshot (Prisma.board s)).

(** What one call of [uuidv4()] may return. *)
Definition example_uuid : string := "123e4567-e89b-42d3-a456-426614174000".

Definition update_container_failure : Response :=
  mkResponse 500 (ErrorJson "Error updating container").

Definition update_item_failure : Response :=
  mkResponse 500 (ErrorJson "Error updating item").

(** A store whose ids have a length the [:id] chains accept. *)
Definition short_id_store : Store :=
  mkStore
    (<["col-1" := mkContainer "col-1" "To do" (Some "open work") 0]> ∅)
    (<["item-1" := mkItem "item-1" "one" 3 "col-1"]> ∅)
    int32.

Definition short_id_world : World := mkWorld short_id_store [] [].

(** A board with one container and no item, and two requests that each
    create an item in it. *)
Definition empty_container_world : World :=
  mkWorld (mkStore (<["A" := mkContainer "A" "To do" None 0]> ∅) ∅ int32) [] [].

Definition first_uuid : string := "11111111-1111-4111-8111-111111111111".
Definition second_uuid : string := "22222222-2222-4222-8222-222222222222".

Definition two_creates (fk : bool) : list (task (error + Response)) :=
  [post_containers_items_task fk first_uuid "A" (VObj [("title", VStr "first")]);
   post_containers_items_task fk second_uuid "A" (VObj [("title", VStr "second")])].

Definition created (it : Item) : task (error + Response) :=
  Done (inr (mkResponse 201 (ItemJson it))).

Definition invalid_id : Response := mkResponse 400 (ErrorsJson ["id"]).

(** A computation that touches nothing but the database. *)
Definition db_only {A} (m : M A) : Prop :=
  forall w, exists s', (m w).2 = set_db s' w.

(** * The remaining routes *)

(** ** Deleting rows *)

(** What the schema says is to happen to the items of a container that is
    deleted.  The schema is not part of the sources: the action is a
    parameter of the operation, next to [fk]. *)
Inductive referential_action : Type :=
| OnDeleteCascade    (* the items of the container are deleted with it *)
| OnDeleteRestrict   (* the delete is refused while an item refers to it *)
| OnDeleteNone       (* the relation is not enforced: the items stay *).

(** [prisma.item.delete({ where: { id } })] *)
Definition item_delete (id : value) : M Item :=
  match id with
  | VStr id =>
      let! s := get_db in
      match items s !! id with
      | None => throw RecordNotFound
      | Some it =>
          put_db (set_items (delete id (items s)) s);;
          ret it
      end
  | _ => throw PrismaValidationError
  end.

(** [prisma.container.delete({ where: { id } })] *)
Definition container_delete (action : referential_action) (id : value)
    : M Container :=
  match id with
  | VStr id =>
      let! s := get_db in
      match containers s !! id with
      | None => throw RecordNotFound
      | Some c =>
          let elsewhere (kv : string * Item) := item_containerId kv.2 <> id in
          match action with
          | OnDeleteCascade =>
              put_db (mkStore (delete id (containers s))
                              (filter elsewhere (items s))
                              (fits s));;
              ret c
          | OnDeleteRestrict =>
              if forallb (fun it => negb (bool_decide (item_containerId it = id)))
                         (Prisma.rows (items s))
              then put_db (set_containers (delete id (containers s)) s);; ret c
              else throw ForeignKeyConstraintFailed
          | OnDeleteNone =>
              put_db (set_containers (delete id (containers s)) s);;
              ret c
          end
      end
  | _ => throw PrismaValidationError
  end.

(** What a route that may answer without a body sends:
    [res.status(n).json(...)] or [res.status(n).send()]. *)
Inductive reply : Type :=
| WithJson (r : Response)
| Bare (status : Z).

Definition reply_status (r : reply) : Z :=
  match r with
  | WithJson r => status r
  | Bare n => n
  end.

(** The [validate] middleware in front of such a route. *)
Definition validate_bare (errors : list string) (next : M reply) : M reply :=
  match errors with
  | [] => next
  | _ :: _ => ret (WithJson (mkResponse 400 (ErrorsJson errors)))
  end.

Definition delete_container_failure : reply :=
  WithJson (mkResponse 500 (ErrorJson "Error deleting container")).

Definition delete_item_failure : reply :=
  WithJson (mkResponse 500 (ErrorJson "Error deleting item")).

(** [app.delete('/api/containers/:id', ...)] *)
Definition delete_containers_id (action : referential_action) (id : string)
    : M reply :=
  validate_bare (id_param id)
    (try_catch
       (container_delete action (VStr id);;
        ret (Bare 204))
       (fun _ => ret delete_container_failure)).

(** [app.delete('/api/items/:id', ...)] *)
Definition delete_items_id (id : string) : M reply :=
  validate_bare (id_param id)
    (try_catch
       (item_delete (VStr id);;
        ret (Bare 204))
       (fun _ => ret delete_item_failure)).

(** ** Vocabulary of the further statements *)

(** A computation relates the database it finds to the one it leaves. *)
Definition keeps {A} (R : relation Store) (m : M A) : Prop :=
  forall w, R (db w) (db (m w).2).

(** What a reorder may change in the items table: for every key, the row
    is there before and after with the same id and the same title, or it
    is absent before and after. *)
Definition same_items_modulo_place (s s' : Store) : Prop :=
  containers s' = containers s /\
  forall k,
    option_Forall2
      (fun a b => item_id b = item_id a /\ item_title b = item_title a)
      (items s !! k) (items s' !! k).

Definition keyed_after (s s' : Store) : Prop := keyed s -> keyed s'.

(** The ids a batch names are pairwise different. *)
Definition distinct_ids (B : batch) : Prop :=
  NoDup (map (fun u : string * string * Z => u.1.1) (updates B)).

(** The first eight characters of [s] are there and none is a dash. *)
Fixpoint dashless_prefix (n : nat) (s : string) : bool :=
  match n with
  | O => true
  | S n' =>
      match s with
      | EmptyString => false
      | String a rest => negb (Ascii.eqb a "-"%char) && dashless_prefix n' rest
      end
  end.

Fixpoint has_dash (s : string) : bool :=
  match s with
  | EmptyString => false
  | String a rest => Ascii.eqb a "-"%char || has_dash rest
  end.

Definition by_container_position : relation (Container * list Item) :=
  fun a b => container_position a.1 <= container_position b.1.

Definition by_item_position : relation Item :=
  fun a b => item_position a <= item_position b.

Definition initialData (s : Store) (sk : nat) : Emission :=
  mkEmission sk "initialData" (Snapshot (Prisma.board s)).

(** The position [POST /api/containers] computes before it inserts. *)
Definition next_container_position (s : Store) : Z :=
  match head (Prisma.orderBy_desc container_position (Prisma.rows (containers s))) with
  | Some c => container_position c + 1
  | None => 0
  end.

(** The position [POST /api/containers/:containerId/items] computes. *)
Definition next_item_position (s : Store) (cid : string) : Z :=
  match head (Prisma.orderBy_desc item_position
                (filter (fun it => item_containerId it = cid)
                        (Prisma.rows (items s)))) with
  | Some it => item_position it + 1
  | None => 0
  end.

(** * Properties *)

(** ** Running computations *)

Lemma run_bind {A B} (m : M A) (k : A -> M B) w :
  bind m k w =
  match m w with
  | (inl e, w') => (inl e, w')
  | (inr a, w') => k a w'
  end.
Proof. reflexivity. Qed.

Lemma run_ret {A} (a : A) w : ret a w = (inr a, w).
Proof. reflexivity. Qed.

Lemma run_throw {A} e w : @throw A e w = (inl e, w).
Proof. reflexivity. Qed.

Lemma set_db_same w : set_db (db w) w = w.
Proof. destruct w; reflexivity. Qed.

(** ** The reorder loops *)

#[local] Arguments Prisma.writable : simpl never.
#[local] Arguments Prisma.item_update : simpl never.
#[local] Arguments Prisma.container_update : simpl never.

Section ReorderFacts.

Variable fk : bool.

Lemma for_each_app {A} (xs ys : list A) (f : A -> M unit) w :
  for_each (xs ++ ys) f w = (for_each xs f;; for_each ys f) w.
Proof.
  revert w. induction xs as [|x xs IH]; intros w; simpl.
  - reflexivity.
  - unfold bind. destruct (f x w) as [[e|[]] w1]; [reflexivity|].
    rewrite IH. reflexivity.
Qed.

Lemma inner_loop_encode cid (its : list (string * Z)) w :
  for_each (map encode_item its) (fun item =>
      let! item_id := JS.prop "id" item in
      let! item_position := JS.prop "position" item in
      Prisma.item_update fk item_id VUndefined item_position (VStr cid);;
      ret tt) w
  = for_each (map (fun i => (i.1, cid, i.2)) its) (move fk) w.
Proof.
  revert w. induction its as [|[iid p] its IH]; intros w; simpl; [reflexivity|].
  unfold move at 1. unfold bind. simpl.
  destruct (Prisma.item_update _ _ _ _ _ w) as [[e|it] w1]; simpl; [reflexivity|].
  apply IH.
Qed.

Lemma reorder_loops_encode (B : batch) w :
  reorder_loops fk (encode_batch B) w = for_each (updates B) (move fk) w.
Proof.
  unfold reorder_loops, encode_batch. unfold bind at 1. simpl.
  revert w. induction B as [|[cid its] B IH]; intros w; simpl; [reflexivity|].
  rewrite for_each_app, !run_bind. simpl. rewrite !run_bind. simpl. rewrite run_bind. simpl.
  rewrite inner_loop_encode.
  destruct (for_each _ (move fk) w) as [[e|[]] w1]; [reflexivity|].
  apply IH.
Qed.

Lemma move_run iid cid p w :
  (move fk) (iid, cid, p) w =
  if Prisma.writable (db w) p
  then
    match items (db w) !! iid with
    | None => (inl RecordNotFound, w)
    | Some it =>
        if Prisma.fk_violation fk (db w) (Prisma.Given cid)
        then (inl ForeignKeyConstraintFailed, w)
        else (inr tt,
              set_db (set_items (<[iid := moved (cid, p) it]> (items (db w)))
                                (db w)) w)
    end
  else (inl PrismaValidationError, w).
Proof.
  unfold move, Prisma.item_update. simpl.
  rewrite !run_bind. simpl.
  destruct (Prisma.writable (db w) p); simpl; [|reflexivity].
  destruct (items (db w) !! iid) as [it|]; [|reflexivity].
  destruct (fk && _); reflexivity.
Qed.

Lemma move_row_insert m iid cid p it :
  m !! iid = Some it ->
  <[iid := moved (cid, p) it]> m = move_row m (iid, cid, p).
Proof.
  intros H. unfold move_row. simpl. apply map_eq. intros k.
  rewrite lookup_alter, lookup_insert.
  destruct (decide (iid = k)) as [->|]; [rewrite H|]; reflexivity.
Qed.

(** A valid batch whose positions fit the column runs to its end; what it
    leaves in the items table is the fold of its row updates. *)
Lemma moves_ok us : forall w,
  (forall iid cid p, (iid, cid, p) ∈ us ->
     is_Some (items (db w) !! iid) /\ is_Some (containers (db w) !! cid) /\
     Prisma.writable (db w) p = true) ->
  for_each us (move fk) w =
  (inr tt, set_db (set_items (foldl move_row (items (db w)) us) (db w)) w).
Proof.
  induction us as [|[[iid cid] p] us IH]; intros w Hv; simpl.
  - destruct w as [[cs its f] sk ob]. reflexivity.
  - rewrite run_bind, move_run.
    destruct (Hv iid cid p) as ([it Hit] & [c Hc] & Hp); [left|].
    rewrite Hp, Hit. unfold Prisma.fk_violation. rewrite Hc.
    rewrite bool_decide_eq_false_2 by discriminate.
    rewrite andb_false_r.
    rewrite IH.
    + simpl. rewrite (move_row_insert _ _ _ _ _ Hit). reflexivity.
    + intros iid' cid' p' Hin. simpl.
      destruct (Hv iid' cid' p') as (Hi' & Hc' & Hp'); [right; exact Hin|].
      split; [|split; [exact Hc'|exact Hp']].
      apply lookup_insert_is_Some.
      destruct (decide (iid = iid')); [left|right]; auto.
Qed.

(** A batch naming an item that does not exist, or a position the column
    does not hold, throws; the loops touch nothing but the database. *)
Lemma moves_fail us : forall w,
  (exists iid cid p, (iid, cid, p) ∈ us /\
     (items (db w) !! iid = None \/ Prisma.writable (db w) p = false)) ->
  exists e s', for_each us (move fk) w = (inl e, set_db s' w).
Proof.
  induction us as [|[[iid cid] p] us IH]; intros w (iid' & cid' & p' & Hin & Hbad).
  - inversion Hin.
  - simpl. rewrite run_bind, move_run.
    destruct (Prisma.writable (db w) p) eqn:Hp;
      [|exists PrismaValidationError, (db w); by rewrite set_db_same].
    destruct (items (db w) !! iid) as [it|] eqn:Hit.
    + destruct (Prisma.fk_violation fk (db w) (Prisma.Given cid)).
      * exists ForeignKeyConstraintFailed, (db w). by rewrite set_db_same.
      * apply elem_of_cons in Hin as [Heq|Hin].
        { injection Heq as -> -> ->. destruct Hbad; congruence. }
        destruct (IH (set_db (set_items (<[iid := moved (cid, p) it]> (items (db w)))
                                        (db w)) w)) as (e & s' & Hrun).
        { exists iid', cid', p'. split; [exact Hin|]. simpl.
          destruct Hbad as [Hnone|Hbad]; [left|right; exact Hbad].
          rewrite lookup_insert_ne; [exact Hnone|]. congruence. }
        exists e, s'. rewrite Hrun. reflexivity.
    + exists RecordNotFound, (db w). by rewrite set_db_same.
Qed.

Lemma lookup_moves us : forall (m : gmap string Item) k,
  foldl move_row m us !! k =
  match last_entry us k with
  | Some e => moved e <$> m !! k
  | None => m !! k
  end.
Proof.
  induction us as [|[[iid cid] p] us IH]; intros m k; simpl; [reflexivity|].
  rewrite IH. unfold move_row at 1 2. simpl. rewrite lookup_alter.
  destruct (last_entry us k) as [e|]; destruct (decide (iid = k)) as [->|];
    try reflexivity.
  destruct (m !! k); reflexivity.
Qed.

End ReorderFacts.

(** ** Reading the board *)

Lemma elem_of_rows {A} (m : gmap string A) (x : A) :
  x ∈ Prisma.rows m <-> exists k, m !! k = Some x.
Proof.
  unfold Prisma.rows. rewrite list_elem_of_fmap. split.
  - intros [[k y] [-> Hin]]. exists k. by apply elem_of_map_to_list in Hin.
  - intros [k Hk]. exists (k, x). split; [reflexivity|].
    by apply elem_of_map_to_list.
Qed.

Lemma elem_of_orderBy_asc {A} (key : A -> Z) (l : list A) x :
  x ∈ Prisma.orderBy_asc key l <-> x ∈ l.
Proof. unfold Prisma.orderBy_asc. by rewrite merge_sort_Permutation. Qed.

Lemma elem_of_items_of s cid it :
  it ∈ Prisma.items_of s cid <->
  (exists k, items s !! k = Some it) /\ item_containerId it = cid.
Proof.
  unfold Prisma.items_of.
  rewrite elem_of_orderBy_asc, list_elem_of_filter, elem_of_rows. tauto.
Qed.

(** What a snapshot shows, in terms of the tables. *)
Lemma shown_board s cid it :
  shown (Prisma.board s) cid it <->
  (exists k, items s !! k = Some it) /\ item_containerId it = cid /\
  (exists k c, containers s !! k = Some c /\ container_id c = cid).
Proof.
  unfold shown, Prisma.board. split.
  - intros (c & its & Hin & Hc & Hit).
    apply list_elem_of_In, in_map_iff in Hin as (c' & Heq & Hin).
    injection Heq as -> <-. apply list_elem_of_In in Hin.
    apply elem_of_orderBy_asc, elem_of_rows in Hin as [k Hk].
    apply elem_of_items_of in Hit as [Hrow Hcid].
    rewrite Hc in Hcid. eauto 6.
  - intros (Hrow & Hcid & k & c & Hk & Hc).
    exists c, (Prisma.items_of s (container_id c)). split; [|split].
    + apply list_elem_of_In, in_map_iff. exists c. split; [reflexivity|].
      apply list_elem_of_In, elem_of_orderBy_asc, elem_of_rows. eauto.
    + exact Hc.
    + apply elem_of_items_of. rewrite Hc. auto.
Qed.

Lemma get_containers_run w :
  get_containers w = (inr (mkResponse 200 (ContainersJson (Prisma.board (db w)))), w).
Proof. reflexivity. Qed.

(** ** Computations that touch nothing but the database *)

Lemma db_only_ret {A} (a : A) : db_only (ret a).
Proof. intros w. exists (db w). simpl. by rewrite set_db_same. Qed.

Lemma db_only_throw {A} e : db_only (@throw A e).
Proof. intros w. exists (db w). simpl. by rewrite set_db_same. Qed.

Lemma db_only_bind {A B} (m : M A) (k : A -> M B) :
  db_only m -> (forall a, db_only (k a)) -> db_only (bind m k).
Proof.
  intros Hm Hk w. rewrite run_bind.
  destruct (Hm w) as [s1 H1]. destruct (m w) as [[e|a] w1]; simpl in H1; subst w1.
  - by exists s1.
  - destruct (Hk a (set_db s1 w)) as [s2 H2]. exists s2. rewrite H2. reflexivity.
Qed.

Lemma db_only_for_each {A} (xs : list A) (f : A -> M unit) :
  (forall x, db_only (f x)) -> db_only (for_each xs f).
Proof.
  intros Hf. induction xs as [|x xs IH]; simpl.
  - apply db_only_ret.
  - apply db_only_bind; [apply Hf|intros _; exact IH].
Qed.

Lemma db_only_prop k v : db_only (JS.prop k v).
Proof. destruct v; first [apply db_only_ret | apply db_only_throw]. Qed.

Lemma db_only_iterate v : db_only (JS.iterate v).
Proof. destruct v; first [apply db_only_ret | apply db_only_throw]. Qed.

Lemma db_only_item_update fk id t p c : db_only (Prisma.item_update fk id t p c).
Proof.
  intros w. unfold Prisma.item_update.
  destruct id; try apply db_only_throw.
  rewrite run_bind. simpl.
  destruct (_ || _); [apply db_only_throw|].
  destruct (items (db w) !! s); [|apply db_only_throw].
  destruct (Prisma.fk_violation _ _ _); [apply db_only_throw|].
  rewrite run_bind. simpl. eexists. reflexivity.
Qed.

Lemma db_only_reorder_loops fk v : db_only (reorder_loops fk v).
Proof.
  unfold reorder_loops.
  apply db_only_bind; [apply db_only_iterate|]. intros cs.
  apply db_only_for_each. intros c.
  apply db_only_bind; [apply db_only_prop|]. intros id.
  apply db_only_bind; [apply db_only_prop|]. intros its.
  apply db_only_bind; [apply db_only_iterate|]. intros l.
  apply db_only_for_each. intros it.
  apply db_only_bind; [apply db_only_prop|]. intros iid.
  apply db_only_bind; [apply db_only_prop|]. intros p.
  apply db_only_bind; [apply db_only_item_update|]. intros _.
  apply db_only_ret.
Qed.

(** A transaction whose body throws leaves the world as it found it. *)
Lemma transaction_rollback {A} (body : M A) w e w' :
  db_only body -> body w = (inl e, w') ->
  Prisma.transaction body w = (inl e, w).
Proof.
  intros Hdb Hrun. unfold Prisma.transaction. rewrite Hrun.
  destruct (Hdb w) as [s' Hs]. rewrite Hrun in Hs. simpl in Hs. subst w'.
  destruct w; reflexivity.
Qed.

Lemma transaction_commit {A} (body : M A) w a w' :
  body w = (inr a, w') -> Prisma.transaction body w = (inr a, w').
Proof. intros Hrun. unfold Prisma.transaction. by rewrite Hrun. Qed.

(** ** The bulk reorder route *)

Section Reorder.

Variable fk : bool.

Lemma loops_valid_run B w :
  valid_batch (db w) B -> fitting_batch (db w) B ->
  reorder_loops fk (encode_batch B) w = (inr tt, reordered B w).
Proof.
  intros Hv Hf. rewrite reorder_loops_encode. apply moves_ok.
  intros iid cid p Hin. destruct (Hv iid cid p Hin). split; [|split]; eauto.
Qed.

Lemma reorder_valid_run B w :
  valid_batch (db w) B -> fitting_batch (db w) B ->
  patch_containers_order_items fk (reorder_request B) w =
  (inr reorder_ack, reordered B w).
Proof.
  intros Hv Hf. unfold patch_containers_order_items, validate, reorder_request.
  rewrite run_bind. simpl. unfold try_catch. rewrite run_bind.
  rewrite (transaction_commit _ w tt (reordered B w)); [reflexivity|].
  by apply loops_valid_run.
Qed.

Lemma reorder_missing_run B w :
  (exists iid cid p, (iid, cid, p) ∈ updates B /\
     (items (db w) !! iid = None \/ Prisma.writable (db w) p = false)) ->
  patch_containers_order_items fk (reorder_request B) w = (inr reorder_failure, w).
Proof.
  intros Hm. unfold patch_containers_order_items, validate, reorder_request.
  rewrite run_bind. simpl. unfold try_catch. rewrite run_bind.
  destruct (moves_fail fk (updates B) w Hm) as (e & s' & Hrun).
  rewrite (transaction_rollback _ w e (set_db s' w)); [reflexivity| |].
  - apply db_only_reorder_loops.
  - rewrite reorder_loops_encode. exact Hrun.
Qed.

Lemma last_entry_elem_of us k cid p :
  last_entry us k = Some (cid, p) -> (k, cid, p) ∈ us.
Proof.
  induction us as [|[[iid c] q] us IH]; simpl; [discriminate|].
  destruct (last_entry us k) as [e|].
  - intros [= ->]. right. by apply IH.
  - destruct (decide (iid = k)) as [->|]; [|discriminate].
    intros [= -> ->]. left.
Qed.

Lemma last_entry_is_Some us k cid p :
  (k, cid, p) ∈ us -> is_Some (last_entry us k).
Proof.
  induction us as [|[[iid c] q] us IH]; [inversion 1|].
  intros [Heq|Hin]%elem_of_cons; simpl.
  - injection Heq as <- <- <-. destruct (last_entry us k); [eauto|].
    rewrite decide_True by reflexivity. eauto.
  - destruct (IH Hin) as [e ->]. eauto.
Qed.

Lemma last_entry_distinct us k cid p :
  NoDup (map (fun u : string * string * Z => u.1.1) us) ->
  (k, cid, p) ∈ us -> last_entry us k = Some (cid, p).
Proof.
  induction us as [|[[iid c] q] us IH]; [by intros _ ?%elem_of_nil|].
  simpl. intros [Hnotin Hnd]%NoDup_cons [Heq|Hin]%elem_of_cons.
  - injection Heq as <- <- <-.
    destruct (last_entry us k) as [[c' p']|] eqn:Hl.
    + exfalso. apply Hnotin. apply last_entry_elem_of in Hl.
      apply list_elem_of_In, in_map_iff. exists (k, c', p').
      split; [reflexivity|]. by apply list_elem_of_In.
    + by rewrite decide_True.
  - by rewrite (IH Hnd Hin).
Qed.

(** Whatever the range of the column, a position that is written lies
    strictly between [-2^53] and [2^53]. *)
Lemma writable_safe s n : Prisma.writable s n = true -> - 2 ^ 53 < n < 2 ^ 53.
Proof.
  unfold Prisma.writable, Prisma.safe_integer.
  intros [[Hlo Hhi]%andb_prop _]%andb_prop.
  apply Z.ltb_lt in Hlo. apply Z.gtb_lt in Hhi. lia.
Qed.

(** Either every position of a batch can be written, or one of its
    entries has a position that cannot. *)
Lemma fitting_batch_dec s B :
  fitting_batch s B \/
  exists iid cid p, (iid, cid, p) ∈ updates B /\ Prisma.writable s p = false.
Proof.
  unfold fitting_batch. induction (updates B) as [|[[iid cid] p] us IH].
  - left. intros iid cid p Hin. by apply elem_of_nil in Hin.
  - destruct (Prisma.writable s p) eqn:Hp;
      [|right; exists iid, cid, p; split; [left|done]].
    destruct IH as [IH|(iid' & cid' & p' & Hin & Hbad)].
    + left. intros iid' cid' p' [[= -> -> ->]|Hin]%elem_of_cons; eauto.
    + right. exists iid', cid', p'. split; [by right|done].
Qed.

Lemma keyed_reordered B w : keyed (db w) -> keyed (db (reordered B w)).
Proof.
  intros [Hi Hc]. split; [|exact Hc]. intros k it. simpl.
  rewrite lookup_moves. destruct (last_entry (updates B) k) as [e|]; [|apply Hi].
  destruct (items (db w) !! k) as [it0|] eqn:H0; [|discriminate].
  intros [= <-]. simpl. by apply Hi.
Qed.

Lemma fitting_reordered B B' w :
  fitting_batch (db w) B' -> fitting_batch (db (reordered B w)) B'.
Proof. intros Hf iid cid p Hin. exact (Hf iid cid p Hin). Qed.

Lemma valid_reordered B B' w :
  valid_batch (db w) B' -> valid_batch (db (reordered B w)) B'.
Proof.
  intros Hv iid cid p Hin. destruct (Hv iid cid p Hin) as [[it Hit] Hc].
  split; [|exact Hc]. simpl. rewrite lookup_moves.
  destruct (last_entry (updates B) iid); rewrite Hit; simpl; eauto.
Qed.

Lemma reordered_twice B w : reordered B (reordered B w) = reordered B w.
Proof.
  unfold reordered. simpl. unfold set_db, set_items. simpl. do 2 f_equal.
  apply map_eq. intros k. rewrite !lookup_moves.
  destruct (last_entry (updates B) k) as [e|]; [|reflexivity].
  destruct (items (db w) !! k); reflexivity.
Qed.

End Reorder.

(** ** Statements about the reorder transaction *)

(** Closing goals about the example tables. *)
Ltac example_rows H :=
  simpl in H;
  repeat (rewrite lookup_insert in H; case_decide; [simplify_eq; try done|]);
  try (rewrite lookup_empty in H; discriminate).

Ltac example_entries H :=
  simpl in H;
  repeat (apply elem_of_cons in H as [H|H]; [simplify_eq|]);
  try (by apply elem_of_nil in H).

Lemma keyed_example_store : keyed example_store.
Proof. split; intros k x H; example_rows H. Qed.

Lemma valid_example_batch : valid_batch example_store example_batch.
Proof.
  intros iid cid p H. example_entries H; split; eexists; reflexivity.
Qed.

Lemma valid_duplicate_batch : valid_batch example_store duplicate_batch.
Proof.
  intros iid cid p H. example_entries H; split; eexists; reflexivity.
Qed.

Lemma fitting_example_batch : fitting_batch example_store example_batch.
Proof. intros iid cid p H. example_entries H; reflexivity. Qed.

Lemma distinct_example_batch : distinct_ids example_batch.
Proof. apply (bool_decide_unpack _). vm_compute. exact I. Qed.

Lemma fitting_duplicate_batch : fitting_batch example_store duplicate_batch.
Proof. intros iid cid p H. example_entries H; reflexivity. Qed.

(** C1.  After a valid batch whose positions can be written (exact
    integers in the range of the column) has been applied through
    [PATCH /api/containers-order-items], the snapshot read by
    [GET /api/containers] shows every item the batch refers to exactly
    once, at a position and under the enclosing container the batch gives
    for it: those of the last entry the batch has for the item, hence
    those of every entry when the batch names each item once.  An item the batch does not refer to is shown after the
    call exactly where, and exactly as, it was shown before. *)
Theorem reorder_then_snapshot (fk : bool) (B : batch) (w : World) :
  keyed (db w) ->
  valid_batch (db w) B ->
  fitting_batch (db w) B ->
  exists w' before after,
    get_containers w = (inr (mkResponse 200 (ContainersJson before)), w) /\
    patch_containers_order_items fk (reorder_request B) w = (inr reorder_ack, w') /\
    get_containers w' = (inr (mkResponse 200 (ContainersJson after)), w') /\
    (forall iid, referenced B iid ->
       exists cid p it,
         last_entry (updates B) iid = Some (cid, p) /\
         (iid, cid, p) ∈ updates B /\
         shown after cid it /\
         item_id it = iid /\ item_position it = p /\ item_containerId it = cid /\
         forall cid' it',
           shown after cid' it' -> item_id it' = iid -> cid' = cid /\ it' = it) /\
    (distinct_ids B ->
     forall iid cid p, (iid, cid, p) ∈ updates B ->
       exists it,
         shown after cid it /\
         item_id it = iid /\ item_position it = p /\ item_containerId it = cid) /\
    (forall cid it, ~ referenced B (item_id it) ->
       shown after cid it <-> shown before cid it).
Proof.
  intros Hk Hv Hf.
  exists (reordered B w), (Prisma.board (db w)), (Prisma.board (db (reordered B w))).
  split; [apply get_containers_run|].
  split; [by apply reorder_valid_run|].
  split; [apply get_containers_run|].
  pose proof (keyed_reordered B w Hk) as Hk'.
  assert (Hlast_shown : forall iid cid p,
            last_entry (updates B) iid = Some (cid, p) ->
            exists it0 c,
              items (db w) !! iid = Some it0 /\
              containers (db w) !! cid = Some c /\
              items (db (reordered B w)) !! iid = Some (moved (cid, p) it0) /\
              shown (Prisma.board (db (reordered B w))) cid (moved (cid, p) it0)).
  { intros iid cid p Hlast.
    pose proof (last_entry_elem_of _ _ _ _ Hlast) as Hin.
    destruct (Hv iid cid p Hin) as [[it0 Hit0] [c Hc]].
    assert (Hrow : items (db (reordered B w)) !! iid = Some (moved (cid, p) it0)).
    { simpl. rewrite lookup_moves, Hlast, Hit0. reflexivity. }
    exists it0, c. split; [exact Hit0|]. split; [exact Hc|]. split; [exact Hrow|].
    apply shown_board. split; [eauto|]. split; [reflexivity|].
    exists cid, c. split; [exact Hc|]. by apply Hk. }
  split; [|split].
  - intros iid (cid0 & p0 & Hin0).
    destruct (last_entry_is_Some _ _ _ _ Hin0) as [[cid p] Hlast].
    pose proof (last_entry_elem_of _ _ _ _ Hlast) as Hin.
    destruct (Hlast_shown iid cid p Hlast) as (it0 & c & Hit0 & Hc & Hrow & Hshown).
    exists cid, p, (moved (cid, p) it0).
    split; [exact Hlast|]. split; [exact Hin|]. split; [exact Hshown|].
    split; [simpl; by apply Hk|].
    split; [reflexivity|]. split; [reflexivity|].
    intros cid' it' Hs Hid.
    apply shown_board in Hs as ([k Hrow'] & Hcid & _).
    assert (k = iid) as -> by (rewrite <- Hid; symmetry; by apply Hk').
    rewrite Hrow in Hrow'. injection Hrow' as <-.
    split; [by rewrite <- Hcid|reflexivity].
  - intros Hnd iid cid p Hin.
    pose proof (last_entry_distinct _ _ _ _ Hnd Hin) as Hlast.
    destruct (Hlast_shown iid cid p Hlast) as (it0 & c & Hit0 & Hc & Hrow & Hshown).
    exists (moved (cid, p) it0). split; [exact Hshown|].
    split; [simpl; by apply Hk|]. split; reflexivity.
  - intros cid it Hun. rewrite !shown_board.
    assert ((exists k, items (db (reordered B w)) !! k = Some it) <->
            (exists k, items (db w) !! k = Some it)) as ->; [|reflexivity].
    split; intros [k Hrow]; exists k.
    + pose proof (proj1 Hk' k it Hrow) as Hid.
      simpl in Hrow. rewrite lookup_moves in Hrow.
      destruct (last_entry (updates B) k) as [[c p]|] eqn:Hlast; [|exact Hrow].
      exfalso. apply Hun. rewrite Hid. exists c, p.
      by apply last_entry_elem_of.
    + pose proof (proj1 Hk k it Hrow) as Hid.
      simpl. rewrite lookup_moves.
      destruct (last_entry (updates B) k) as [[c p]|] eqn:Hlast; [|exact Hrow].
      exfalso. apply Hun. rewrite Hid. exists c, p.
      by apply last_entry_elem_of.
Qed.

Lemma reorder_then_snapshot_witness :
  keyed (db example_world) /\
  valid_batch (db example_world) example_batch /\
  fitting_batch (db example_world) example_batch /\
  exists w',
    patch_containers_order_items true (reorder_request example_batch) example_world
    = (inr reorder_ack, w') /\
    exists it,
      shown (Prisma.board (db w')) "A" it /\
      item_id it = "i3" /\ item_position it = 0.
Proof.
  split; [exact keyed_example_store|].
  split; [exact valid_example_batch|].
  split; [exact fitting_example_batch|].
  destruct (reorder_then_snapshot true example_batch example_world
              keyed_example_store valid_example_batch fitting_example_batch)
    as (w' & before & after & _ & Hrun & Hget & _ & Hentry & _).
  exists w'. split; [exact Hrun|].
  rewrite get_containers_run in Hget. injection Hget as <-.
  destruct (Hentry distinct_example_batch "i3" "A" 0) as (it & Hs & Hid & Hp & _);
    [left|].
  exists it. done.
Defined.

(** A batch that repeats an item id is applied entry by entry: the last
    entry for the item wins.  [i1], listed at positions 0 and 1 in [A], is
    shown at position 1. *)
Example reorder_repeated_id_last_wins :
  valid_batch (db example_world) duplicate_batch /\
  exists w',
    patch_containers_order_items true (reorder_request duplicate_batch) example_world
    = (inr reorder_ack, w') /\
    shown (Prisma.board (db w')) "A" (mkItem "i1" "one" 1 "A").
Proof.
  split; [exact valid_duplicate_batch|].
  exists (reordered duplicate_batch example_world).
  split; [apply reorder_valid_run;
          [exact valid_duplicate_batch|exact fitting_duplicate_batch]|].
  apply shown_board. split; [exists "i1"; reflexivity|].
  split; [reflexivity|]. exists "A", (mkContainer "A" "To do" None 0).
  split; vm_compute; reflexivity.
Qed.

(** C2.  A batch that names at least one item id that is not in the store
    makes [PATCH /api/containers-order-items] fail, and the world after the
    call, the database included, is the world before it; so is the
    snapshot. *)
Theorem reorder_missing_item_changes_nothing (fk : bool) (B : batch) (w : World) :
  (exists iid, referenced B iid /\ items (db w) !! iid = None) ->
  exists w',
    patch_containers_order_items fk (reorder_request B) w = (inr reorder_failure, w') /\
    w' = w /\
    get_containers w' = get_containers w.
Proof.
  intros (iid & (cid & p & Hin) & Hnone).
  exists w. split; [|done].
  apply reorder_missing_run. eauto 6.
Qed.

Lemma reorder_missing_item_changes_nothing_witness :
  (exists iid, referenced dangling_batch iid /\
               items (db example_world) !! iid = None) /\
  patch_containers_order_items true (reorder_request dangling_batch) example_world
  = (inr reorder_failure, example_world).
Proof.
  assert (H : exists iid, referenced dangling_batch iid /\
                          items (db example_world) !! iid = None).
  { exists "i9". split; [|reflexivity].
    exists "A", 1. right. left. }
  split; [exact H|].
  destruct (reorder_missing_item_changes_nothing true dangling_batch
              example_world H) as (w' & Hrun & -> & _).
  exact Hrun.
Defined.

(** C3.  Applying a valid batch a second time answers as the first time
    and leaves the world (the database, and with it the snapshot) exactly
    as the first application left it; when the positions of the batch can
    be written (exact integers in the range of the column), both answers
    are the acknowledgement. *)
Theorem reorder_idempotent (fk : bool) (B : batch) (w : World) :
  valid_batch (db w) B ->
  exists r w1,
    patch_containers_order_items fk (reorder_request B) w = (inr r, w1) /\
    patch_containers_order_items fk (reorder_request B) w1 = (inr r, w1) /\
    (fitting_batch (db w) B -> r = reorder_ack).
Proof.
  intros Hv.
  destruct (fitting_batch_dec (db w) B) as [Hf|(iid & cid & p & Hin & Hbad)].
  - exists reorder_ack, (reordered B w).
    split; [by apply reorder_valid_run|]. split; [|done].
    rewrite reorder_valid_run
      by (first [by apply valid_reordered | by apply fitting_reordered]).
    by rewrite reordered_twice.
  - assert (Hrun : patch_containers_order_items fk (reorder_request B) w
                   = (inr reorder_failure, w))
      by (apply reorder_missing_run; eauto 6).
    exists reorder_failure, w. split; [exact Hrun|]. split; [exact Hrun|].
    intros Hf. rewrite (Hf iid cid p Hin) in Hbad. discriminate.
Qed.

Lemma reorder_idempotent_witness :
  valid_batch (db example_world) example_batch /\
  exists w1,
    patch_containers_order_items true (reorder_request example_batch) example_world
    = (inr reorder_ack, w1) /\
    patch_containers_order_items true (reorder_request example_batch) w1
    = (inr reorder_ack, w1).
Proof.
  split; [exact valid_example_batch|].
  destruct (reorder_idempotent true example_batch example_world
              valid_example_batch) as (r & w1 & H1 & H2 & Hr).
  rewrite (Hr fitting_example_batch) in H1, H2.
  exists w1. split; assumption.
Defined.

(** The worked example of the specification: moving [i3] to the front of
    [A] leaves [A] with [i3], [i1], [i2] at positions 0, 1, 2 and [B]
    empty. *)
Example reorder_example :
  exists w',
    patch_containers_order_items true (reorder_request example_batch) example_world
    = (inr reorder_ack, w') /\
    Prisma.board (db w') =
    [(mkContainer "A" "To do" None 0,
      [mkItem "i3" "three" 0 "A"; mkItem "i1" "one" 1 "A"; mkItem "i2" "two" 2 "A"]);
     (mkContainer "B" "Done" None 1, [])].
Proof.
  eexists.
  split; [apply reorder_valid_run;
          [exact valid_example_batch|exact fitting_example_batch]|].
  vm_compute. reflexivity.
Qed.

(** ** The socket channel *)

Lemma transaction_db_only {A} (body : M A) w r w' :
  db_only body -> Prisma.transaction body w = (r, w') ->
  sockets w' = sockets w /\ outbox w' = outbox w.
Proof.
  intros Hdb. unfold Prisma.transaction.
  destruct (Hdb w) as [s' Hs]. destruct (body w) as [[e|a] w1]; simpl in Hs;
    subst w1; intros [= <- <-]; done.
Qed.

(** C4.  When the transaction started by an ['updatedItems'] message
    commits, the handler reads the board again and emits it as
    ['dataUpdated'] once to every connected socket and to nothing else, so
    also to the socket the message came from; when the transaction throws,
    the handler ends with that exception and the world, its outbox
    included, is untouched. *)
Theorem updatedItems_broadcast (fk : bool) (payload : value) (w : World)
    (sender : nat) :
  sender ∈ sockets w ->
  match Prisma.transaction (reorder_loops fk payload) w with
  | (inr _, w1) =>
      on_updatedItems fk payload w =
        (inr tt, mkWorld (db w1) (sockets w)
                   (outbox w ++ map (dataUpdated (db w1)) (sockets w))) /\
      get_containers w1 = (inr (mkResponse 200 (ContainersJson (Prisma.board (db w1)))), w1) /\
      dataUpdated (db w1) sender ∈ outbox (on_updatedItems fk payload w).2
  | (inl e, _) => on_updatedItems fk payload w = (inl e, w)
  end.
Proof.
  intros Hsender.
  destruct (reorder_loops fk payload w) as [[e|[]] w1] eqn:Hrun.
  - pose proof (transaction_rollback _ w e w1
                  (db_only_reorder_loops fk payload) Hrun) as Htx.
    rewrite Htx. unfold on_updatedItems. by rewrite run_bind, Htx.
  - pose proof (transaction_commit _ w tt w1 Hrun) as Htx. rewrite Htx.
    destruct (transaction_db_only _ _ _ _ (db_only_reorder_loops fk payload) Htx)
      as [Hsk Hob].
    assert (Hout : on_updatedItems fk payload w =
                   (inr tt, mkWorld (db w1) (sockets w)
                              (outbox w ++ map (dataUpdated (db w1)) (sockets w)))).
    { unfold on_updatedItems. rewrite run_bind, Htx.
      unfold Prisma.container_findMany. rewrite !run_bind. simpl.
      unfold io_emit. by rewrite Hsk, Hob. }
    split; [exact Hout|]. split; [apply get_containers_run|].
    rewrite Hout. simpl. apply elem_of_app. right.
    apply list_elem_of_In, in_map, list_elem_of_In, Hsender.
Qed.

Lemma updatedItems_broadcast_witness :
  1%nat ∈ sockets example_world /\
  exists w1,
    Prisma.transaction (reorder_loops true (encode_batch example_batch)) example_world
    = (inr tt, w1) /\
    outbox (on_updatedItems true (encode_batch example_batch) example_world).2 =
    [dataUpdated (db w1) 1; dataUpdated (db w1) 2].
Proof.
  assert (Hin : 1%nat ∈ sockets example_world) by (simpl; left).
  split; [exact Hin|].
  pose proof (updatedItems_broadcast true (encode_batch example_batch)
                example_world 1 Hin) as H.
  rewrite (transaction_commit _ example_world tt
             (reordered example_batch example_world)) in H.
  - destruct H as [Hrun _]. eexists. split; [reflexivity|]. by rewrite Hrun.
  - apply loops_valid_run; [exact valid_example_batch|exact fitting_example_batch].
Defined.

(** A batch with a dangling item id sent over the socket: the handler
    throws and nothing is emitted. *)
Example updatedItems_failure_is_silent :
  on_updatedItems true (encode_batch dangling_batch) example_world
  = (inl RecordNotFound, example_world).
Proof. vm_compute. reflexivity. Qed.

(** ** Requests the reorder route should have refused *)

(** X22.  The route has no validation chain: whatever the body, it answers
    200, or 500 with the world untouched, or throws while reading a body
    that is [null] or [undefined]; it never answers 400. *)
Lemma reorder_route_outcomes (fk : bool) (body : value) (w : World) :
  exists r w',
    patch_containers_order_items fk body w = (r, w') /\
    (r = inr reorder_ack \/
     (r = inr reorder_failure /\ w' = w) \/
     (r = inl TypeError /\ w' = w)).
Proof.
  unfold patch_containers_order_items, validate. rewrite run_bind.
  assert (Hbody : (exists v, JS.prop "containers" body w = (inr v, w)) \/
                  JS.prop "containers" body w = (inl TypeError, w))
    by (destruct body; simpl; eauto).
  destruct Hbody as [[v ->]| ->];
    [|exists (inl TypeError), w; split; [reflexivity|]; right; right; done].
  unfold try_catch. rewrite run_bind.
  destruct (reorder_loops fk v w) as [[e|[]] w1] eqn:Hrun.
  - rewrite (transaction_rollback _ w e w1 (db_only_reorder_loops fk v) Hrun).
    exists (inr reorder_failure), w. split; [reflexivity|]. right. left. done.
  - rewrite (transaction_commit _ w tt w1 Hrun).
    exists (inr reorder_ack), w1. split; [reflexivity|]. by left.
Qed.

(** C8 at two malformed bodies.  A body without [containers] is answered
    with the generic 500, not with a validation error; a body whose entry
    lacks [position] is answered 200 and moves [i1] into container [B]. *)
Theorem malformed_reorder_not_rejected :
  patch_containers_order_items true body_without_containers example_world
  = (inr reorder_failure, example_world) /\
  exists w',
    patch_containers_order_items true body_without_position example_world
    = (inr reorder_ack, w') /\
    items (db example_world) !! "i1" = Some (mkItem "i1" "one" 0 "A") /\
    items (db w') !! "i1" = Some (mkItem "i1" "one" 0 "B").
Proof.
  split; [vm_compute; reflexivity|].
  eexists. split; [vm_compute; reflexivity|].
  split; vm_compute; reflexivity.
Qed.

(** ** Positions given on create *)

Section LastRow.

Context {A : Type} (key : A -> Z).

#[local] Instance desc_transitive : Transitive (Prisma.desc key).
Proof. intros x y z. unfold Prisma.desc. lia. Qed.

#[local] Instance desc_total : Total (Prisma.desc key).
Proof. intros x y. unfold Prisma.desc. lia. Qed.

Lemma head_orderBy_desc_None (l : list A) :
  head (Prisma.orderBy_desc key l) = None -> l = [].
Proof.
  unfold Prisma.orderBy_desc. intros H.
  apply Permutation_nil_r. rewrite <- (merge_sort_Permutation (Prisma.desc key) l).
  by destruct (merge_sort _ l).
Qed.

Lemma head_orderBy_desc_Some (l : list A) (x : A) :
  head (Prisma.orderBy_desc key l) = Some x ->
  x ∈ l /\ forall y, y ∈ l -> key y <= key x.
Proof.
  unfold Prisma.orderBy_desc. intros H.
  pose proof (StronglySorted_merge_sort (Prisma.desc key) l) as Hs.
  pose proof (merge_sort_Permutation (Prisma.desc key) l) as Hp.
  destruct (merge_sort (Prisma.desc key) l) as [|x' l'] eqn:Hm; [discriminate|].
  injection H as ->. split.
  - rewrite <- Hp. left.
  - intros y Hy. rewrite <- Hp in Hy.
    apply StronglySorted_inv in Hs as [_ Hall].
    apply elem_of_cons in Hy as [->|Hy]; [lia|].
    rewrite Forall_forall in Hall. by apply Hall.
Qed.

End LastRow.

Lemma prop_run k v w r w' : JS.prop k v w = (r, w') -> w' = w.
Proof. destruct v; simpl; by intros [= _ <-]. Qed.

Lemma container_create_run id title description position w c w' :
  Prisma.container_create id title description position w = (inr c, w') ->
  containers (db w) !! id = None /\
  container_id c = id /\ container_position c = position /\
  w' = set_db (set_containers (<[id := c]> (containers (db w))) (db w)) w.
Proof.
  unfold Prisma.container_create.
  destruct (Prisma.string_input title); try discriminate.
  destruct (Prisma.optional_string_input description); try discriminate;
    rewrite run_bind; simpl;
    (destruct (Prisma.writable (db w) position); [|discriminate]);
    (destruct (containers (db w) !! id) eqn:Hfree; [discriminate|]);
    rewrite run_bind; simpl; intros [= <- <-]; done.
Qed.

Lemma item_create_run fk id title position containerId w it w' :
  Prisma.item_create fk id title position containerId w = (inr it, w') ->
  items (db w) !! id = None /\
  item_id it = id /\ item_position it = position /\
  item_containerId it = containerId /\
  w' = set_db (set_items (<[id := it]> (items (db w))) (db w)) w.
Proof.
  unfold Prisma.item_create.
  destruct (Prisma.string_input title); try discriminate.
  rewrite run_bind; simpl.
  destruct (Prisma.writable (db w) position); [|discriminate].
  destruct (items (db w) !! id) eqn:Hfree; [discriminate|].
  destruct (_ && _); [discriminate|].
  rewrite run_bind; simpl; intros [= <- <-]; done.
Qed.

(** C5.  A container created by [POST /api/containers] is stored with a
    position above that of every container present before the call: 0
    when there was none, otherwise the position of one of them plus one.
    An item created by [POST /api/containers/:containerId/items] is stored
    in that container with a position above that of every item the
    container held before the call: 0 when it held none, otherwise the
    position of one of them plus one. *)
Theorem create_appends_at_end :
  (forall uuid body w c w',
     post_containers uuid body w = (inr (mkResponse 201 (ContainerJson c)), w') ->
     containers (db w') !! container_id c = Some c /\
     (forall k c0, containers (db w) !! k = Some c0 ->
        container_position c0 < container_position c) /\
     ((forall k, containers (db w) !! k = None) /\ container_position c = 0 \/
      exists k c0, containers (db w) !! k = Some c0 /\
        container_position c = container_position c0 + 1)) /\
  (forall fk uuid containerId body w it w',
     post_containers_items fk uuid containerId body w
     = (inr (mkResponse 201 (ItemJson it)), w') ->
     items (db w') !! item_id it = Some it /\
     item_containerId it = containerId /\
     (forall k it0, items (db w) !! k = Some it0 ->
        item_containerId it0 = containerId ->
        item_position it0 < item_position it) /\
     ((forall k it0, items (db w) !! k = Some it0 ->
         item_containerId it0 <> containerId) /\ item_position it = 0 \/
      exists k it0, items (db w) !! k = Some it0 /\
        item_containerId it0 = containerId /\
        item_position it = item_position it0 + 1)).
Proof.
  split.
  - intros uuid body w c w'. unfold post_containers, validate.
    destruct (_ ++ _); [|discriminate].
    rewrite run_bind.
    destruct (JS.prop "title" body w) as [[e|title] w1] eqn:Ht; [discriminate|].
    apply prop_run in Ht as ->. rewrite run_bind.
    destruct (JS.prop "description" body w) as [[e|description] w1] eqn:Hd;
      [discriminate|].
    apply prop_run in Hd as ->.
    unfold try_catch, Prisma.container_findFirst_last. rewrite !run_bind. simpl.
    rewrite run_bind.
    destruct (Prisma.container_create _ _ _ _ w) as [[e|c'] w1] eqn:Hc;
      [discriminate|].
    simpl. intros [= -> ->].
    apply container_create_run in Hc as (Hfree & Hid & Hpos & ->).
    split; [simpl; rewrite Hid; apply lookup_insert_eq|].
    destruct (head _) as [last|] eqn:Hlast.
    + apply head_orderBy_desc_Some in Hlast as [Hin Hmax].
      apply elem_of_rows in Hin as [k Hk]. split.
      * intros k0 c0 Hk0. rewrite Hpos.
        assert (container_position c0 <= container_position last); [|lia].
        apply Hmax, elem_of_rows. eauto.
      * right. exists k, last. by rewrite Hpos.
    + apply head_orderBy_desc_None in Hlast. split.
      * intros k0 c0 Hk0.
        assert (c0 ∈ Prisma.rows (containers (db w))) as Hin
          by (apply elem_of_rows; eauto).
        rewrite Hlast in Hin. by apply elem_of_nil in Hin.
      * left. split; [|exact Hpos]. intros k0.
        destruct (containers (db w) !! k0) as [c0|] eqn:Hk0; [|reflexivity].
        assert (c0 ∈ Prisma.rows (containers (db w))) as Hin
          by (apply elem_of_rows; eauto).
        rewrite Hlast in Hin. by apply elem_of_nil in Hin.
  - intros fk uuid cid body w it w'. unfold post_containers_items, validate.
    destruct (_ ++ _); [|discriminate].
    rewrite run_bind.
    destruct (JS.prop "title" body w) as [[e|title] w1] eqn:Ht; [discriminate|].
    apply prop_run in Ht as ->.
    unfold try_catch, Prisma.item_findFirst_last. rewrite !run_bind. simpl.
    rewrite run_bind.
    destruct (Prisma.item_create _ _ _ _ _ w) as [[e|it'] w1] eqn:Hc;
      [discriminate|].
    simpl. intros [= -> ->].
    apply item_create_run in Hc as (Hfree & Hid & Hpos & Hcid & ->).
    split; [simpl; rewrite Hid; apply lookup_insert_eq|].
    split; [exact Hcid|].
    destruct (head _) as [last|] eqn:Hlast.
    + apply head_orderBy_desc_Some in Hlast as [Hin Hmax].
      apply list_elem_of_filter in Hin as [Hlc Hin].
      apply elem_of_rows in Hin as [k Hk]. split.
      * intros k0 it0 Hk0 Hc0. rewrite Hpos.
        assert (item_position it0 <= item_position last); [|lia].
        apply Hmax, list_elem_of_filter. split; [exact Hc0|].
        apply elem_of_rows. eauto.
      * right. exists k, last. by rewrite Hpos.
    + apply head_orderBy_desc_None in Hlast.
      assert (Hnone : forall k0 it0, items (db w) !! k0 = Some it0 ->
                        item_containerId it0 <> cid).
      { intros k0 it0 Hk0 Hc0.
        assert (it0 ∈ filter (fun it => item_containerId it = cid)
                         (Prisma.rows (items (db w)))) as Hin.
        { apply list_elem_of_filter. split; [exact Hc0|]. apply elem_of_rows. eauto. }
        rewrite Hlast in Hin. by apply elem_of_nil in Hin. }
      split.
      * intros k0 it0 Hk0 Hc0. by destruct (Hnone k0 it0 Hk0).
      * left. split; [exact Hnone|exact Hpos].
Qed.

Lemma create_appends_at_end_witness :
  (exists w',
     post_containers example_uuid (VObj [("title", VStr "Doing")]) example_world
     = (inr (mkResponse 201
               (ContainerJson (mkContainer "container-123e4567" "Doing" None 2))), w') /\
     containers (db w') !! "container-123e4567"
     = Some (mkContainer "container-123e4567" "Doing" None 2)) /\
  (exists w',
     post_containers_items true example_uuid "A" (VObj [("title", VStr "four")])
       example_world
     = (inr (mkResponse 201 (ItemJson (mkItem "item-123e4567" "four" 2 "A"))), w') /\
     items (db w') !! "item-123e4567" = Some (mkItem "item-123e4567" "four" 2 "A")).
Proof.
  split.
  - assert (exists w',
       post_containers example_uuid (VObj [("title", VStr "Doing")]) example_world
       = (inr (mkResponse 201
                 (ContainerJson (mkContainer "container-123e4567" "Doing" None 2))), w'))
      as [w' H] by (eexists; vm_compute; reflexivity).
    exists w'. split; [exact H|].
    exact (proj1 (proj1 create_appends_at_end _ _ _ _ _ H)).
  - assert (exists w',
       post_containers_items true example_uuid "A" (VObj [("title", VStr "four")])
         example_world
       = (inr (mkResponse 201 (ItemJson (mkItem "item-123e4567" "four" 2 "A"))), w'))
      as [w' H] by (eexists; vm_compute; reflexivity).
    exists w'. split; [exact H|].
    exact (proj1 (proj2 create_appends_at_end _ _ _ _ _ _ _ H)).
Defined.

(** ** Updates of single rows *)

(** Running a handler symbolically up to its next database call. *)
Ltac run :=
  repeat progress
    (rewrite ?run_bind, ?run_ret, ?run_throw; unfold try_catch; simpl).

Lemma item_update_cases fk id t p c w :
  (exists e, Prisma.item_update fk (VStr id) t p c w = (inl e, w)) \/
  (exists it,
     items (db w) !! id = Some it /\
     let it' := mkItem (item_id it)
                  (Prisma.write (Prisma.string_input t) (item_title it))
                  (Prisma.write (Prisma.int_input (Prisma.writable (db w)) p)
                     (item_position it))
                  (Prisma.write (Prisma.string_input c) (item_containerId it)) in
     Prisma.item_update fk (VStr id) t p c w =
     (inr it', set_db (set_items (<[id := it']> (items (db w))) (db w)) w)).
Proof.
  unfold Prisma.item_update. rewrite run_bind. simpl.
  destruct (_ || _); [left; eexists; reflexivity|].
  destruct (items (db w) !! id) as [it|]; [|left; eexists; reflexivity].
  destruct (Prisma.fk_violation _ _ _); [left; eexists; reflexivity|].
  right. exists it. split; [reflexivity|]. rewrite run_bind. reflexivity.
Qed.

Lemma container_update_cases id t d p w :
  (exists e, Prisma.container_update (VStr id) t d p w = (inl e, w)) \/
  (exists c,
     containers (db w) !! id = Some c /\
     let c' := mkContainer (container_id c)
                 (Prisma.write (Prisma.string_input t) (container_title c))
                 (Prisma.write (Prisma.optional_string_input d)
                    (container_description c))
                 (Prisma.write (Prisma.int_input (Prisma.writable (db w)) p)
                    (container_position c)) in
     Prisma.container_update (VStr id) t d p w =
     (inr c', set_db (set_containers (<[id := c']> (containers (db w))) (db w)) w)).
Proof.
  unfold Prisma.container_update. rewrite run_bind. simpl.
  destruct (_ || _); [left; eexists; reflexivity|].
  destruct (containers (db w) !! id) as [c|]; [|left; eexists; reflexivity].
  right. exists c. split; [reflexivity|]. rewrite run_bind. reflexivity.
Qed.

(** ** The primary-key invariant *)

(** Rows are inserted under their own id and updates never write the id:
    every write of the client keeps the tables keyed. *)
Lemma keyed_insert_item s id it :
  keyed s -> item_id it = id -> keyed (set_items (<[id := it]> (items s)) s).
Proof.
  intros [Hi Hc] Hid. split; [|exact Hc]. intros k x. simpl.
  rewrite lookup_insert. case_decide; [intros [= <-]; congruence|apply Hi].
Qed.

Lemma keyed_insert_container s id c :
  keyed s -> container_id c = id ->
  keyed (set_containers (<[id := c]> (containers s)) s).
Proof.
  intros [Hi Hc] Hid. split; [exact Hi|]. intros k x. simpl.
  rewrite lookup_insert. case_decide; [intros [= <-]; congruence|apply Hc].
Qed.

Lemma keyed_item_create fk id title position containerId w it w' :
  Prisma.item_create fk id title position containerId w = (inr it, w') ->
  keyed (db w) -> keyed (db w').
Proof.
  intros (_ & Hid & _ & _ & ->)%item_create_run Hk. by apply keyed_insert_item.
Qed.

Lemma keyed_container_create id title description position w c w' :
  Prisma.container_create id title description position w = (inr c, w') ->
  keyed (db w) -> keyed (db w').
Proof.
  intros (_ & Hid & _ & ->)%container_create_run Hk.
  by apply keyed_insert_container.
Qed.

Lemma keyed_item_update fk id t p c w r w' :
  Prisma.item_update fk (VStr id) t p c w = (r, w') ->
  keyed (db w) -> keyed (db w').
Proof.
  intros Hrun Hk.
  destruct (item_update_cases fk id t p c w) as [[e He]|(it & Hit & Hok)].
  - rewrite He in Hrun. by injection Hrun as <- <-.
  - simpl in Hok. rewrite Hok in Hrun. injection Hrun as <- <-.
    apply keyed_insert_item; [exact Hk|]. simpl. by apply Hk.
Qed.

Lemma keyed_container_update id t d p w r w' :
  Prisma.container_update (VStr id) t d p w = (r, w') ->
  keyed (db w) -> keyed (db w').
Proof.
  intros Hrun Hk.
  destruct (container_update_cases id t d p w) as [[e He]|(c & Hc & Hok)].
  - rewrite He in Hrun. by injection Hrun as <- <-.
  - simpl in Hok. rewrite Hok in Hrun. injection Hrun as <- <-.
    apply keyed_insert_container; [exact Hk|]. simpl. by apply Hk.
Qed.

(** ** Missing ids and omitted keys in the update routes *)

(** An update under a container id that passes validation and is not in
    the store is answered 500, where a missing id calls for 404. *)
Example update_missing_id_example :
  containers (db example_world) !! "abcde" = None /\
  patch_containers_id_chains "abcde" (VObj [("title", VStr "Renamed")]) = [] /\
  patch_containers_id "abcde" (VObj [("title", VStr "Renamed")]) example_world
  = (inr update_container_failure, example_world) /\
  status update_container_failure <> 404.
Proof. repeat split; try reflexivity. discriminate. Qed.

(** C6 on the code.  An update of a container or of an item whose request
    passes the validation chains and whose id is not in the store fails,
    but not with a not-found answer: the caller gets the generic 500 of
    the route's [catch], and the world is untouched. *)
Theorem update_missing_id_is_500 :
  (forall id fields w,
     containers (db w) !! id = None ->
     patch_containers_id_chains id (VObj fields) = [] ->
     patch_containers_id id (VObj fields) w = (inr update_container_failure, w)) /\
  (forall fk id fields w,
     items (db w) !! id = None ->
     patch_items_id_chains id (VObj fields) = [] ->
     patch_items_id fk id (VObj fields) w = (inr update_item_failure, w)).
Proof.
  split.
  - intros id fields w Hnone Hok. unfold patch_containers_id. rewrite Hok. simpl.
    run.
    destruct (container_update_cases id (assoc "title" fields)
                (assoc "description" fields) (assoc "position" fields) w)
      as [[e ->]|(c & Hc & _)]; [reflexivity|congruence].
  - intros fk id fields w Hnone Hok. unfold patch_items_id. rewrite Hok. simpl.
    run.
    destruct (item_update_cases fk id (assoc "title" fields)
                (assoc "position" fields) (assoc "containerId" fields) w)
      as [[e ->]|(c & Hc & _)]; [reflexivity|congruence].
Qed.

Lemma update_missing_id_is_500_witness :
  (containers (db example_world) !! "abcde" = None /\
   patch_containers_id_chains "abcde" (VObj [("title", VStr "Renamed")]) = [] /\
   patch_containers_id "abcde" (VObj [("title", VStr "Renamed")]) example_world
   = (inr update_container_failure, example_world)) /\
  (items (db example_world) !! "item9" = None /\
   patch_items_id_chains "item9" (VObj [("position", VNum 4)]) = [] /\
   patch_items_id true "item9" (VObj [("position", VNum 4)]) example_world
   = (inr update_item_failure, example_world)).
Proof.
  split.
  - assert (H1 : containers (db example_world) !! "abcde" = None) by reflexivity.
    assert (H2 : patch_containers_id_chains "abcde"
                   (VObj [("title", VStr "Renamed")]) = []) by reflexivity.
    split; [exact H1|]. split; [exact H2|].
    exact (proj1 update_missing_id_is_500 _ _ _ H1 H2).
  - assert (H1 : items (db example_world) !! "item9" = None) by reflexivity.
    assert (H2 : patch_items_id_chains "item9"
                   (VObj [("position", VNum 4)]) = []) by reflexivity.
    split; [exact H1|]. split; [exact H2|].
    exact (proj2 update_missing_id_is_500 true _ _ _ H1 H2).
Defined.

Lemma prop_cases body w :
  (forall k, JS.prop k body w = (inl TypeError, w)) \/
  (forall k, JS.prop k body w = (inr (Validator.select k body), w)).
Proof. destruct body; simpl; auto. Qed.

(** C10.  Whatever [PATCH /api/items/:id] answers, the row of an existing
    item keeps its title, its position and its container id whenever the
    body leaves the corresponding key out; likewise
    [PATCH /api/containers/:id] keeps the title, the description and the
    position of an existing container for the keys the body leaves out. *)
Theorem update_keeps_omitted_fields :
  (forall fk id body w it,
     items (db w) !! id = Some it ->
     exists it',
       items (db (patch_items_id fk id body w).2) !! id = Some it' /\
       (Validator.select "title" body = VUndefined ->
        item_title it' = item_title it) /\
       (Validator.select "position" body = VUndefined ->
        item_position it' = item_position it) /\
       (Validator.select "containerId" body = VUndefined ->
        item_containerId it' = item_containerId it)) /\
  (forall id body w c,
     containers (db w) !! id = Some c ->
     exists c',
       containers (db (patch_containers_id id body w).2) !! id = Some c' /\
       (Validator.select "title" body = VUndefined ->
        container_title c' = container_title c) /\
       (Validator.select "description" body = VUndefined ->
        container_description c' = container_description c) /\
       (Validator.select "position" body = VUndefined ->
        container_position c' = container_position c)).
Proof.
  split.
  - intros fk id body w it Hit. unfold patch_items_id, validate.
    destruct (patch_items_id_chains id body); [|exists it; done].
    destruct (prop_cases body w) as [Hp|Hp]; rewrite run_bind, Hp;
      [exists it; done|].
    rewrite run_bind, Hp, run_bind, Hp. unfold try_catch. rewrite run_bind.
    destruct (item_update_cases fk id (Validator.select "title" body)
                (Validator.select "position" body)
                (Validator.select "containerId" body) w)
      as [[e ->]|(it0 & Hit0 & ->)]; [exists it; done|].
    rewrite Hit in Hit0. injection Hit0 as <-.
    eexists. split; [simpl; apply lookup_insert_eq|].
    simpl. repeat split; intros ->; reflexivity.
  - intros id body w c Hc. unfold patch_containers_id, validate.
    destruct (patch_containers_id_chains id body); [|exists c; done].
    destruct (prop_cases body w) as [Hp|Hp]; rewrite run_bind, Hp;
      [exists c; done|].
    rewrite run_bind, Hp, run_bind, Hp. unfold try_catch. rewrite run_bind.
    destruct (container_update_cases id (Validator.select "title" body)
                (Validator.select "description" body)
                (Validator.select "position" body) w)
      as [[e ->]|(c0 & Hc0 & ->)]; [exists c; done|].
    rewrite Hc in Hc0. injection Hc0 as <-.
    eexists. split; [simpl; apply lookup_insert_eq|].
    simpl. repeat split; intros ->; reflexivity.
Qed.

Lemma update_keeps_omitted_fields_witness :
  (items (db short_id_world) !! "item-1" = Some (mkItem "item-1" "one" 3 "col-1") /\
   patch_items_id true "item-1" (VObj [("title", VStr "uno")]) short_id_world
   = (inr (mkResponse 200 (ItemJson (mkItem "item-1" "uno" 3 "col-1"))),
      (patch_items_id true "item-1" (VObj [("title", VStr "uno")]) short_id_world).2) /\
   exists it',
     items (db (patch_items_id true "item-1" (VObj [("title", VStr "uno")])
                  short_id_world).2) !! "item-1" = Some it' /\
     item_position it' = 3 /\ item_containerId it' = "col-1") /\
  (containers (db short_id_world) !! "col-1"
   = Some (mkContainer "col-1" "To do" (Some "open work") 0) /\
   exists c',
     containers (db (patch_containers_id "col-1" (VObj [("position", VNum 5)])
                       short_id_world).2) !! "col-1" = Some c' /\
     container_title c' = "To do" /\
     container_description c' = Some "open work").
Proof.
  split.
  - assert (H : items (db short_id_world) !! "item-1"
                = Some (mkItem "item-1" "one" 3 "col-1")) by reflexivity.
    split; [exact H|]. split; [vm_compute; reflexivity|].
    destruct (proj1 update_keeps_omitted_fields true "item-1"
                (VObj [("title", VStr "uno")]) short_id_world _ H)
      as (it' & Hrow & _ & Hp & Hc).
    exists it'. split; [exact Hrow|].
    split; [exact (Hp eq_refl)|exact (Hc eq_refl)].
  - assert (H : containers (db short_id_world) !! "col-1"
                = Some (mkContainer "col-1" "To do" (Some "open work") 0))
      by reflexivity.
    split; [exact H|].
    destruct (proj2 update_keeps_omitted_fields "col-1"
                (VObj [("position", VNum 5)]) short_id_world _ H)
      as (c' & Hrow & Ht & Hd & _).
    exists c'. split; [exact Hrow|].
    split; [exact (Ht eq_refl)|exact (Hd eq_refl)].
Defined.

(** ** Minted identifiers against the [:id] chain *)

Lemma length_append (a b : string) :
  String.length (a +:+ b) = (String.length a + String.length b)%nat.
Proof.
  induction a as [|c a IH]; [reflexivity|].
  change (String c a +:+ b) with (String c (a +:+ b)). simpl. by rewrite IH.
Qed.

Lemma id_param_length (id : string) :
  id_param id =
  if (5 <=? String.length id)%nat && (String.length id <=? 8)%nat
  then [] else ["id"].
Proof.
  unfold id_param, Validator.chain.
  rewrite !filter_cons, filter_nil.
  rewrite decide_False by discriminate.
  change (Validator.isLength 5 8 (VStr id))
    with ((5 <=? String.length id)%nat && (String.length id <=? 8)%nat).
  destruct (_ && _).
  - by rewrite decide_False.
  - by rewrite decide_True.
Qed.

Lemma container_id_refused uuid :
  (8 < String.length ("container-" +:+ generateUUID uuid))%nat /\
  id_param ("container-" +:+ generateUUID uuid) = ["id"].
Proof.
  rewrite id_param_length, length_append. simpl. split; [lia|reflexivity].
Qed.

(** C7 on every mint.  Whatever [uuidv4()] returns, the id minted for a
    container is longer than 8 characters and is refused by the [:id]
    chain; the id minted for an item is refused unless [generateUUID]
    returned at most three characters, and for a version 4 UUID it returns
    eight. *)
Theorem minted_ids_fail_id_param :
  (forall uuid,
     (8 < String.length ("container-" +:+ generateUUID uuid))%nat /\
     id_param ("container-" +:+ generateUUID uuid) = ["id"]) /\
  (forall uuid,
     id_param ("item-" +:+ generateUUID uuid) =
     if (String.length (generateUUID uuid) <=? 3)%nat then [] else ["id"]) /\
  generateUUID example_uuid = "123e4567" /\
  id_param ("item-" +:+ generateUUID example_uuid) = ["id"].
Proof.
  split; [|split; [|split; reflexivity]].
  - exact container_id_refused.
  - intros uuid. rewrite id_param_length, length_append. simpl.
    destruct (String.length (generateUUID uuid)) as [|[|[|[|n]]]]; reflexivity.
Qed.

(** X21.  A container that was just created cannot be read back: the id
    the create call returned is refused by the chain of the read route. *)
Lemma created_container_cannot_be_fetched uuid body w c w' :
  post_containers uuid body w = (inr (mkResponse 201 (ContainerJson c)), w') ->
  get_containers_id (container_id c) w' = (inr invalid_id, w').
Proof.
  unfold post_containers, validate.
  destruct (_ ++ _); [|discriminate].
  rewrite run_bind.
  destruct (JS.prop "title" body w) as [[e|title] w1] eqn:Ht; [discriminate|].
  apply prop_run in Ht as ->. rewrite run_bind.
  destruct (JS.prop "description" body w) as [[e|description] w1] eqn:Hd;
    [discriminate|].
  apply prop_run in Hd as ->.
  unfold try_catch, Prisma.container_findFirst_last. rewrite !run_bind. simpl.
  rewrite run_bind.
  destruct (Prisma.container_create _ _ _ _ w) as [[e|c'] w1] eqn:Hc;
    [discriminate|].
  simpl. intros [= -> ->].
  apply container_create_run in Hc as (_ & Hid & _).
  unfold get_containers_id. rewrite Hid.
  rewrite (proj2 (container_id_refused uuid)). reflexivity.
Qed.

(** ** Two creations served at once *)

(** Served alone, the two-step form of the item-creating route is the
    route. *)
Lemma post_containers_items_task_alone fk uuid containerId body w :
  run_alone (post_containers_items_task fk uuid containerId body) w =
  let '(r, w') := post_containers_items fk uuid containerId body w in
  (Done r, w').
Proof.
  unfold run_alone, post_containers_items_task, post_containers_items, validate.
  destruct (_ ++ _); [|reflexivity].
  simpl. rewrite run_bind.
  destruct (JS.prop "title" body w) as [[e|title] w1]; [reflexivity|].
  unfold try_catch, Prisma.item_findFirst_last. rewrite !run_bind. simpl.
  rewrite run_bind.
  destruct (Prisma.item_create _ _ _ _ _ w1) as [[e|it] w2]; reflexivity.
Qed.

(** C9 in a run of the event loop.  Both requests read the last item of
    the empty container before either of them inserts: both are answered
    201 and both items are stored in [A] at position 0. *)
Theorem concurrent_creates_collide :
  exists w',
    event_loop [0%nat; 1%nat; 0%nat; 1%nat] (two_creates true) empty_container_world
    = ([created (mkItem "item-11111111" "first" 0 "A");
        created (mkItem "item-22222222" "second" 0 "A")], w') /\
    items (db w') !! "item-11111111" = Some (mkItem "item-11111111" "first" 0 "A") /\
    items (db w') !! "item-22222222" = Some (mkItem "item-22222222" "second" 0 "A").
Proof.
  eexists. split; [vm_compute; reflexivity|].
  split; vm_compute; reflexivity.
Qed.

(** Served one after the other, the same two requests get positions 0
    and 1. *)
Example consecutive_creates_do_not_collide :
  (event_loop [0%nat; 0%nat; 1%nat; 1%nat] (two_creates true) empty_container_world).1
  = [created (mkItem "item-11111111" "first" 0 "A");
     created (mkItem "item-22222222" "second" 1 "A")].
Proof. vm_compute. reflexivity. Qed.

(** * Further properties of the routes *)

(** ** What the read routes answer *)

Section FirstRow.

Context {A : Type} (key : A -> Z).

#[local] Instance asc_transitive : Transitive (Prisma.asc key).
Proof. intros x y z. unfold Prisma.asc. lia. Qed.

#[local] Instance asc_total : Total (Prisma.asc key).
Proof. intros x y. unfold Prisma.asc. lia. Qed.

Lemma orderBy_asc_sorted (l : list A) :
  StronglySorted (Prisma.asc key) (Prisma.orderBy_asc key l).
Proof. apply StronglySorted_merge_sort; apply _. Qed.

Lemma orderBy_asc_Permutation (l : list A) : Prisma.orderBy_asc key l ≡ₚ l.
Proof. apply merge_sort_Permutation. Qed.

End FirstRow.

Lemma board_fmap s :
  Prisma.board s =
  (fun c => (c, Prisma.items_of s (container_id c))) <$>
    Prisma.orderBy_asc container_position (Prisma.rows (containers s)).
Proof. reflexivity. Qed.

(** X1.  [GET /api/containers] answers 200 and leaves the world as it is;
    the containers of the answer are in ascending order of position, and
    so are the items listed under each of them. *)
Theorem snapshot_is_sorted (w : World) :
  exists snap,
    get_containers w = (inr (mkResponse 200 (ContainersJson snap)), w) /\
    StronglySorted by_container_position snap /\
    forall c its, (c, its) ∈ snap -> StronglySorted by_item_position its.
Proof.
  exists (Prisma.board (db w)). split; [apply get_containers_run|]. split.
  - rewrite board_fmap.
    apply (StronglySorted_fmap _ (Prisma.asc container_position)).
    + intros x y H. exact H.
    + apply orderBy_asc_sorted.
  - intros c its Hin. rewrite board_fmap in Hin.
    apply list_elem_of_fmap in Hin as (c' & [= -> ->] & _).
    apply (orderBy_asc_sorted item_position).
Qed.

(** X2.  In a keyed store the snapshot shows an item under container
    [cid] exactly when the item is a row of the items table, its
    [containerId] is [cid] and [cid] is the id of a stored container; an
    item whose container does not exist is shown nowhere.  The containers
    of the snapshot are the rows of the containers table, each once. *)
Theorem snapshot_shows_placed_items (w : World) :
  keyed (db w) ->
  exists snap,
    get_containers w = (inr (mkResponse 200 (ContainersJson snap)), w) /\
    (forall cid it,
       shown snap cid it <->
       items (db w) !! item_id it = Some it /\
       item_containerId it = cid /\
       is_Some (containers (db w) !! cid)) /\
    (forall it,
       containers (db w) !! item_containerId it = None ->
       forall cid, ~ shown snap cid it) /\
    snap.*1 ≡ₚ Prisma.rows (containers (db w)).
Proof.
  intros [Hi Hc].
  assert (Hshown : forall cid it,
            shown (Prisma.board (db w)) cid it <->
            items (db w) !! item_id it = Some it /\
            item_containerId it = cid /\
            is_Some (containers (db w) !! cid)).
  { intros cid it. rewrite shown_board. split.
    - intros ([k Hk] & Hcid & k' & c & Hk' & Hid).
      rewrite (Hi k it Hk). split; [exact Hk|]. split; [exact Hcid|].
      rewrite <- Hid, (Hc k' c Hk'). eauto.
    - intros (Hrow & Hcid & [c Hk']). split; [eauto|]. split; [exact Hcid|].
      exists cid, c. split; [exact Hk'|]. by apply Hc. }
  exists (Prisma.board (db w)). split; [apply get_containers_run|].
  split; [exact Hshown|]. split.
  - intros it Hnone cid (_ & <- & [c Hsome])%Hshown. congruence.
  - rewrite board_fmap, <- list_fmap_compose.
    rewrite (list_fmap_ext _ id _ (fun _ _ _ => eq_refl)).
    rewrite list_fmap_id. apply orderBy_asc_Permutation.
Qed.

Lemma snapshot_shows_placed_items_witness :
  keyed (db example_world) /\
  exists snap,
    get_containers example_world
    = (inr (mkResponse 200 (ContainersJson snap)), example_world) /\
    shown snap "B" (mkItem "i3" "three" 0 "B").
Proof.
  split; [exact keyed_example_store|].
  destruct (snapshot_shows_placed_items example_world keyed_example_store)
    as (snap & Hrun & Hshown & _).
  exists snap. split; [exact Hrun|].
  apply Hshown. split; [reflexivity|]. split; [reflexivity|].
  eexists; reflexivity.
Defined.

(** X3.  [GET /api/containers/:id], for an id the chain accepts, answers
    404 when no container is stored under the id; otherwise it answers 200
    with the stored container and a list of items, and that pair is an
    entry of the snapshot [GET /api/containers] gives in the same world.
    Either way the world is left as it is. *)
Theorem get_container_agrees_with_snapshot (id : string) (w : World) :
  id_param id = [] ->
  match containers (db w) !! id with
  | None =>
      get_containers_id id w
      = (inr (mkResponse 404 (ErrorJson "Container not found")), w)
  | Some c =>
      exists its snap,
        get_containers_id id w
        = (inr (mkResponse 200 (ContainerItemsJson c its)), w) /\
        get_containers w = (inr (mkResponse 200 (ContainersJson snap)), w) /\
        (c, its) ∈ snap
  end.
Proof.
  intros Hid. unfold get_containers_id. rewrite Hid. simpl.
  unfold try_catch. rewrite run_bind. simpl.
  destruct (containers (db w) !! id) as [c|] eqn:Hc; [|reflexivity].
  exists (Prisma.items_of (db w) (container_id c)), (Prisma.board (db w)).
  split; [reflexivity|]. split; [apply get_containers_run|].
  rewrite board_fmap. apply list_elem_of_fmap. exists c. split; [reflexivity|].
  apply elem_of_orderBy_asc, elem_of_rows. eauto.
Qed.

Lemma get_container_agrees_with_snapshot_witness :
  id_param "col-1" = [] /\
  exists its,
    get_containers_id "col-1" short_id_world
    = (inr (mkResponse 200
              (ContainerItemsJson
                 (mkContainer "col-1" "To do" (Some "open work") 0) its)),
       short_id_world).
Proof.
  assert (H : id_param "col-1" = []) by reflexivity.
  split; [exact H|].
  pose proof (get_container_agrees_with_snapshot "col-1" short_id_world H) as Hget.
  change (containers (db short_id_world) !! "col-1")
    with (Some (mkContainer "col-1" "To do" (Some "open work") 0)) in Hget.
  destruct Hget as (its & snap & Hrun & _). exists its. exact Hrun.
Defined.

(** X4.  A ['requestInitialData'] message is answered with one
    ['initialData'] message, to the socket that asked and to no other,
    carrying the board [GET /api/containers] would answer with; the
    database and the set of sockets are left as they are. *)
Theorem requestInitialData_answers_requester (socket : nat) (w : World) :
  exists snap,
    get_containers w = (inr (mkResponse 200 (ContainersJson snap)), w) /\
    on_requestInitialData socket w
    = (inr tt,
       mkWorld (db w) (sockets w)
         (outbox w ++ [mkEmission socket "initialData" (Snapshot snap)])) /\
    forall e, e ∈ outbox (on_requestInitialData socket w).2 ->
      e ∈ outbox w \/ em_socket e = socket.
Proof.
  exists (Prisma.board (db w)). split; [apply get_containers_run|].
  assert (Hrun : on_requestInitialData socket w
                 = (inr tt,
                    mkWorld (db w) (sockets w)
                      (outbox w ++ [initialData (db w) socket]))) by reflexivity.
  split; [exact Hrun|].
  intros e. rewrite Hrun. simpl.
  intros [Hold|Hnew%list_elem_of_singleton]%elem_of_app; [by left|].
  right. by rewrite Hnew.
Qed.

(** ** Relations every step of a handler keeps *)

Section Keeps.

Context (R : relation Store) `{!Reflexive R, !Transitive R}.

Lemma keeps_ret {A} (a : A) : keeps R (ret a).
Proof. intros w. simpl. reflexivity. Qed.

Lemma keeps_throw {A} e : keeps R (@throw A e).
Proof. intros w. simpl. reflexivity. Qed.

Lemma keeps_get_db : keeps R get_db.
Proof. intros w. simpl. reflexivity. Qed.

Lemma keeps_bind {A B} (m : M A) (k : A -> M B) :
  keeps R m -> (forall a, keeps R (k a)) -> keeps R (bind m k).
Proof.
  intros Hm Hk w. rewrite run_bind. specialize (Hm w).
  destruct (m w) as [[e|a] w1]; simpl in *; [exact Hm|].
  etransitivity; [exact Hm|apply Hk].
Qed.

Lemma keeps_for_each {A} (xs : list A) (f : A -> M unit) :
  (forall x, keeps R (f x)) -> keeps R (for_each xs f).
Proof.
  intros Hf. induction xs as [|x xs IH]; simpl.
  - apply keeps_ret.
  - apply keeps_bind; [apply Hf|intros _; exact IH].
Qed.

Lemma keeps_try_catch {A} (body : M A) (handler : error -> M A) :
  keeps R body -> (forall e, keeps R (handler e)) ->
  keeps R (try_catch body handler).
Proof.
  intros Hb Hh w. unfold try_catch. specialize (Hb w).
  destruct (body w) as [[e|a] w1]; simpl in *; [|exact Hb].
  etransitivity; [exact Hb|apply Hh].
Qed.

Lemma keeps_transaction {A} (body : M A) :
  keeps R body -> keeps R (Prisma.transaction body).
Proof.
  intros Hb w. unfold Prisma.transaction. specialize (Hb w).
  destruct (body w) as [[e|a] w1]; simpl in *; [reflexivity|exact Hb].
Qed.

Lemma keeps_prop k v : keeps R (JS.prop k v).
Proof. destruct v; first [apply keeps_ret | apply keeps_throw]. Qed.

Lemma keeps_iterate v : keeps R (JS.iterate v).
Proof. destruct v; first [apply keeps_ret | apply keeps_throw]. Qed.

Lemma keeps_validate errors next : keeps R next -> keeps R (validate errors next).
Proof. intros Hn. destruct errors; [exact Hn|apply keeps_ret]. Qed.

Lemma keeps_validate_bare errors next :
  keeps R next -> keeps R (validate_bare errors next).
Proof. intros Hn. destruct errors; [exact Hn|apply keeps_ret]. Qed.

Lemma keeps_io_emit event data : keeps R (io_emit event data).
Proof. intros w. simpl. reflexivity. Qed.

Lemma keeps_socket_emit socket event data : keeps R (socket_emit socket event data).
Proof. intros w. simpl. reflexivity. Qed.

Lemma keeps_container_findMany : keeps R Prisma.container_findMany.
Proof. intros w. simpl. reflexivity. Qed.

Lemma keeps_container_findFirst_last : keeps R Prisma.container_findFirst_last.
Proof. intros w. simpl. reflexivity. Qed.

Lemma keeps_item_findFirst_last cid : keeps R (Prisma.item_findFirst_last cid).
Proof. intros w. simpl. reflexivity. Qed.

(** The loops keep what every single update keeps. *)
Lemma keeps_reorder_loops fk v :
  (forall id p c, keeps R (Prisma.item_update fk id VUndefined p c)) ->
  keeps R (reorder_loops fk v).
Proof.
  intros Hu. unfold reorder_loops.
  apply keeps_bind; [apply keeps_iterate|]. intros cs.
  apply keeps_for_each. intros c.
  apply keeps_bind; [apply keeps_prop|]. intros id.
  apply keeps_bind; [apply keeps_prop|]. intros its.
  apply keeps_bind; [apply keeps_iterate|]. intros l.
  apply keeps_for_each. intros it.
  apply keeps_bind; [apply keeps_prop|]. intros iid.
  apply keeps_bind; [apply keeps_prop|]. intros p.
  apply keeps_bind; [apply Hu|]. intros _. apply keeps_ret.
Qed.

End Keeps.

Lemma item_update_outcomes fk id t p c w :
  (exists e, Prisma.item_update fk id t p c w = (inl e, w)) \/
  (exists k it,
     id = VStr k /\ items (db w) !! k = Some it /\
     let it' := mkItem (item_id it)
                  (Prisma.write (Prisma.string_input t) (item_title it))
                  (Prisma.write (Prisma.int_input (Prisma.writable (db w)) p)
                     (item_position it))
                  (Prisma.write (Prisma.string_input c) (item_containerId it)) in
     Prisma.item_update fk id t p c w =
     (inr it', set_db (set_items (<[k := it']> (items (db w))) (db w)) w)).
Proof.
  destruct id as [| | | |k| |]; try (left; eexists; reflexivity).
  destruct (item_update_cases fk k t p c w) as [He|(it & Hit & Hok)];
    [by left|].
  right. exists k, it. done.
Qed.

#[local] Instance same_items_modulo_place_refl : Reflexive same_items_modulo_place.
Proof.
  intros s. split; [reflexivity|]. intros k.
  destruct (items s !! k); constructor; done.
Qed.

#[local] Instance same_items_modulo_place_trans : Transitive same_items_modulo_place.
Proof.
  intros s1 s2 s3 [Hc1 Hi1] [Hc2 Hi2]. split; [congruence|]. intros k.
  specialize (Hi1 k). specialize (Hi2 k).
  destruct Hi1 as [a b [? ?]|]; inversion Hi2 as [b' c [? ?]|]; subst;
    constructor; split; congruence.
Qed.

#[local] Instance keyed_after_refl : Reflexive keyed_after.
Proof. intros s H. exact H. Qed.

#[local] Instance keyed_after_trans : Transitive keyed_after.
Proof. intros s1 s2 s3 H1 H2 H. auto. Qed.

Lemma item_update_places_only fk id p c :
  keeps same_items_modulo_place (Prisma.item_update fk id VUndefined p c).
Proof.
  intros w.
  destruct (item_update_outcomes fk id VUndefined p c w)
    as [[e ->]|(k & it & -> & Hit & ->)]; [reflexivity|].
  split; [reflexivity|]. intros k'. simpl. rewrite lookup_insert.
  case_decide as Hk.
  - subst k'. rewrite Hit. constructor. done.
  - destruct (items (db w) !! k'); constructor; done.
Qed.

Lemma item_update_keyed fk id t p c :
  keeps keyed_after (Prisma.item_update fk id t p c).
Proof.
  intros w Hk.
  destruct (item_update_outcomes fk id t p c w)
    as [[e ->]|(k & it & -> & Hit & ->)]; [exact Hk|].
  apply keyed_insert_item; [exact Hk|]. simpl. by apply Hk.
Qed.

(** X5.  Whatever the body, and whether the request comes over HTTP or
    over the socket, a reorder leaves the containers table as it is and
    neither adds nor removes an item; an item that is there keeps its id
    and its title. *)
Theorem reorder_changes_places_only (fk : bool) (v : value) (w : World) :
  same_items_modulo_place (db w) (db (patch_containers_order_items fk v w).2) /\
  same_items_modulo_place (db w) (db (on_updatedItems fk v w).2).
Proof.
  split.
  - apply (keeps_validate _), (keeps_bind _); [apply (keeps_prop _)|].
    intros containers.
    apply (keeps_try_catch _); [|intros _; apply (keeps_ret _)].
    apply (keeps_bind _); [|intros _; apply (keeps_ret _)].
    apply (keeps_transaction _), (keeps_reorder_loops _).
    intros id p c. apply item_update_places_only.
  - apply (keeps_bind _).
    + apply (keeps_transaction _), (keeps_reorder_loops _).
      intros id p c. apply item_update_places_only.
    + intros _. apply (keeps_bind _); [apply (keeps_container_findMany _)|].
      intros snap. apply (keeps_io_emit _).
Qed.

(** X6.  The two entry points of the reorder do the same to the database:
    for every payload, the database after ['updatedItems'] is the database
    after [PATCH /api/containers-order-items] with that payload under
    [containers]. *)
Theorem reorder_entry_points_agree (fk : bool) (v : value) (w : World) :
  db (on_updatedItems fk v w).2
  = db (patch_containers_order_items fk (VObj [("containers", v)]) w).2.
Proof.
  unfold on_updatedItems, patch_containers_order_items, validate.
  rewrite !run_bind. simpl. unfold try_catch. rewrite run_bind.
  destruct (reorder_loops fk v w) as [[e|[]] w1] eqn:Hrun.
  - rewrite (transaction_rollback _ w e w1 (db_only_reorder_loops fk v) Hrun).
    reflexivity.
  - rewrite (transaction_commit _ w tt w1 Hrun). reflexivity.
Qed.

(** ** Deleting rows *)

Lemma keyed_short_id_store : keyed short_id_store.
Proof.
  split; intros k x H; simpl in H;
    apply lookup_insert_Some in H as [[<- <-]|[_ H]]; done.
Qed.

Lemma item_delete_cases id w :
  (items (db w) !! id = None /\
   item_delete (VStr id) w = (inl RecordNotFound, w)) \/
  (exists it,
     items (db w) !! id = Some it /\
     item_delete (VStr id) w =
     (inr it, set_db (set_items (delete id (items (db w))) (db w)) w)).
Proof.
  unfold item_delete. rewrite run_bind. simpl.
  destruct (items (db w) !! id) as [it|]; [right|left; done].
  exists it. split; [reflexivity|]. rewrite run_bind. reflexivity.
Qed.

Lemma delete_items_id_run id w :
  delete_items_id id w =
  match id_param id with
  | _ :: _ => (inr (WithJson (mkResponse 400 (ErrorsJson (id_param id)))), w)
  | [] =>
      match items (db w) !! id with
      | None => (inr delete_item_failure, w)
      | Some _ =>
          (inr (Bare 204),
           set_db (set_items (delete id (items (db w))) (db w)) w)
      end
  end.
Proof.
  unfold delete_items_id, validate_bare.
  destruct (id_param id); [|reflexivity].
  unfold try_catch. rewrite run_bind.
  destruct (item_delete_cases id w) as [[-> ->]|(it & -> & ->)]; reflexivity.
Qed.

(** X7.  [DELETE /api/items/:id] for a stored item, under an id the chain
    accepts, answers 204 without a body and removes that row and nothing
    else: the containers table and every other item row are as before, and
    the snapshot shows, each where and as it was, the items it showed
    before except the deleted one. *)
Theorem delete_item_removes_one_row (id : string) (w : World) (it : Item) :
  keyed (db w) ->
  id_param id = [] ->
  items (db w) !! id = Some it ->
  exists w',
    delete_items_id id w = (inr (Bare 204), w') /\
    items (db w') = delete id (items (db w)) /\
    containers (db w') = containers (db w) /\
    sockets w' = sockets w /\ outbox w' = outbox w /\
    forall cid x,
      shown (Prisma.board (db w')) cid x <->
      shown (Prisma.board (db w)) cid x /\ item_id x <> id.
Proof.
  intros [Hi Hc] Hid Hit. rewrite delete_items_id_run, Hid, Hit.
  eexists. split; [reflexivity|]. simpl. repeat split; try reflexivity.
  - apply shown_board in H as ([k Hk] & Hcid & Hcont). simpl in *.
    apply lookup_delete_Some in Hk as [_ Hk].
    apply shown_board. eauto.
  - apply shown_board in H as ([k Hk] & _). simpl in Hk.
    apply lookup_delete_Some in Hk as [Hne Hk].
    by rewrite (Hi k x Hk).
  - intros [([k Hk] & Hcid & Hcont)%shown_board Hne].
    apply shown_board. simpl. split; [|done].
    exists k. apply lookup_delete_Some. split; [|exact Hk].
    by rewrite <- (Hi k x Hk).
Qed.

Lemma delete_item_removes_one_row_witness :
  keyed (db short_id_world) /\
  id_param "item-1" = [] /\
  items (db short_id_world) !! "item-1" = Some (mkItem "item-1" "one" 3 "col-1") /\
  exists w',
    delete_items_id "item-1" short_id_world = (inr (Bare 204), w') /\
    items (db w') = delete "item-1" (items (db short_id_world)).
Proof.
  pose proof keyed_short_id_store as Hk.
  assert (Hid : id_param "item-1" = []) by reflexivity.
  assert (Hit : items (db short_id_world) !! "item-1"
                = Some (mkItem "item-1" "one" 3 "col-1")) by reflexivity.
  split; [exact Hk|]. split; [exact Hid|]. split; [exact Hit|].
  destruct (delete_item_removes_one_row "item-1" short_id_world _ Hk Hid Hit)
    as (w' & Hrun & Hitems & _).
  exists w'. split; assumption.
Defined.

(** X8.  [DELETE /api/items/:id] for an id under which no item is stored
    changes nothing: it answers 400 when the chain refuses the id and
    otherwise the generic 500 of the route, not a not-found answer. *)
Theorem delete_item_missing (id : string) (w : World) :
  items (db w) !! id = None ->
  delete_items_id id w =
  (inr match id_param id with
       | [] => delete_item_failure
       | errors => WithJson (mkResponse 400 (ErrorsJson errors))
       end, w).
Proof.
  intros Hnone. rewrite delete_items_id_run, Hnone.
  destruct (id_param id); reflexivity.
Qed.

Lemma delete_item_missing_witness :
  items (db short_id_world) !! "item-2" = None /\
  delete_items_id "item-2" short_id_world = (inr delete_item_failure, short_id_world).
Proof.
  assert (H : items (db short_id_world) !! "item-2" = None) by reflexivity.
  split; [exact H|].
  exact (delete_item_missing "item-2" short_id_world H).
Defined.

Lemma container_delete_cases action id w :
  (containers (db w) !! id = None /\
   container_delete action (VStr id) w = (inl RecordNotFound, w)) \/
  (exists c, containers (db w) !! id = Some c /\
     ((exists e, container_delete action (VStr id) w = (inl e, w)) \/
      (exists its',
         container_delete action (VStr id) w =
         (inr c, set_db (mkStore (delete id (containers (db w))) its'
                           (fits (db w))) w) /\
         (forall k it, its' !! k = Some it -> items (db w) !! k = Some it) /\
         (forall k it, items (db w) !! k = Some it ->
            item_containerId it <> id -> its' !! k = Some it)))).
Proof.
  unfold container_delete. rewrite run_bind. simpl.
  destruct (containers (db w) !! id) as [c|]; [right|left; done].
  exists c. split; [reflexivity|].
  destruct action.
  - right. eexists. rewrite run_bind. simpl. split; [reflexivity|]. split.
    + intros k it H. by apply map_lookup_filter_Some in H as [H _].
    + intros k it H Hne. by apply map_lookup_filter_Some.
  - destruct (forallb _ _).
    + right. exists (items (db w)). rewrite run_bind. simpl.
      split; [reflexivity|]. split; auto.
    + left. eexists. reflexivity.
  - right. exists (items (db w)). rewrite run_bind. simpl.
    split; [reflexivity|]. split; auto.
Qed.

(** X9.  [DELETE /api/containers/:id], whatever the schema says about the
    items of a deleted container: either the route answers 204, the
    container was stored and is now gone, no item row is added or changed,
    every item of another container is kept, nothing is shown under the
    deleted id any more and every other container shows what it showed;
    or the answer is not 204 and the world is as before.  Without a stored
    container under the id it is the second. *)
Theorem delete_container_outcomes (action : referential_action) (id : string)
    (w : World) :
  keyed (db w) ->
  exists r w',
    delete_containers_id action id w = (inr r, w') /\
    sockets w' = sockets w /\ outbox w' = outbox w /\
    ((r = Bare 204 /\
      is_Some (containers (db w) !! id) /\
      containers (db w') = delete id (containers (db w)) /\
      (forall k it, items (db w') !! k = Some it -> items (db w) !! k = Some it) /\
      (forall k it, items (db w) !! k = Some it ->
         item_containerId it <> id -> items (db w') !! k = Some it) /\
      (forall it, ~ shown (Prisma.board (db w')) id it) /\
      (forall cid x, cid <> id ->
         shown (Prisma.board (db w')) cid x <-> shown (Prisma.board (db w)) cid x))
     \/
     (reply_status r <> 204 /\ w' = w)).
Proof.
  intros [Hi Hc]. unfold delete_containers_id, validate_bare.
  destruct (id_param id).
  2: { eexists _, w. split; [reflexivity|]. do 2 (split; [reflexivity|]).
       right. split; [discriminate|reflexivity]. }
  unfold try_catch. rewrite run_bind.
  destruct (container_delete_cases action id w)
    as [[Hnone ->]|(c & Hsome & [[e ->]|(its' & -> & Hsub & Hkeep)])].
  - eexists _, w. split; [reflexivity|]. do 2 (split; [reflexivity|]).
    right. split; [discriminate|reflexivity].
  - eexists _, w. split; [reflexivity|]. do 2 (split; [reflexivity|]).
    right. split; [discriminate|reflexivity].
  - eexists _, _. split; [reflexivity|]. do 2 (split; [reflexivity|]).
    left. simpl. split; [reflexivity|]. split; [eauto|].
    split; [reflexivity|]. split; [exact Hsub|]. split; [exact Hkeep|]. split.
    + intros it (_ & _ & k & c' & Hk & Hid)%shown_board. simpl in Hk.
      apply lookup_delete_Some in Hk as [Hne Hk].
      apply Hne. rewrite <- Hid. by apply Hc.
    + intros cid x Hne. rewrite !shown_board. simpl. split.
      * intros ([k Hk] & Hcid & k' & c' & Hk' & Hid).
        apply lookup_delete_Some in Hk' as [_ Hk']. eauto 8.
      * intros ([k Hk] & Hcid & k' & c' & Hk' & Hid).
        split; [exists k; apply Hkeep; [exact Hk|congruence]|].
        split; [exact Hcid|]. exists k', c'. split; [|exact Hid].
        apply lookup_delete_Some. split; [|exact Hk'].
        rewrite <- (Hc k' c' Hk'). congruence.
Qed.

Lemma delete_container_outcomes_witness :
  keyed (db short_id_world) /\
  exists w',
    delete_containers_id OnDeleteNone "col-1" short_id_world = (inr (Bare 204), w') /\
    containers (db w') = delete "col-1" (containers (db short_id_world)).
Proof.
  split; [exact keyed_short_id_store|].
  destruct (delete_container_outcomes OnDeleteNone "col-1" short_id_world
              keyed_short_id_store)
    as (r & w' & Hrun & _ & _ & [(-> & _ & Hgone & _)|[Hno ->]]).
  - exists w'. split; assumption.
  - exfalso. vm_compute in Hrun. injection Hrun as <-. by apply Hno.
Defined.

(** ** The primary-key invariant, route by route *)

Lemma keyed_weaken s s' :
  (forall k it, items s' !! k = Some it -> items s !! k = Some it) ->
  (forall k c, containers s' !! k = Some c -> containers s !! k = Some c) ->
  keyed s -> keyed s'.
Proof. intros Hi Hc [Ki Kc]. split; intros k x H; [apply Ki|apply Kc]; auto. Qed.

Lemma item_delete_keyed id : keeps keyed_after (item_delete (VStr id)).
Proof.
  intros w Hk.
  destruct (item_delete_cases id w) as [[_ ->]|(it & _ & ->)]; [exact Hk|].
  simpl. revert Hk. apply keyed_weaken; simpl; [|auto].
  intros k x H. by apply lookup_delete_Some in H as [_ H].
Qed.

Lemma container_delete_keyed action id :
  keeps keyed_after (container_delete action (VStr id)).
Proof.
  intros w Hk.
  destruct (container_delete_cases action id w)
    as [[_ ->]|(c & _ & [[e ->]|(its' & -> & Hsub & _)])]; try exact Hk.
  simpl. revert Hk. apply keyed_weaken; simpl; [exact Hsub|].
  intros k x H. by apply lookup_delete_Some in H as [_ H].
Qed.

Lemma container_update_keyed id t d p :
  keeps keyed_after (Prisma.container_update (VStr id) t d p).
Proof.
  intros w Hk. eapply keyed_container_update; [|exact Hk].
  apply surjective_pairing.
Qed.

Lemma container_create_keyed id t d p :
  keeps keyed_after (Prisma.container_create id t d p).
Proof.
  intros w Hk.
  destruct (Prisma.container_create id t d p w) as [[e|c] w'] eqn:Hrun.
  - simpl. unfold Prisma.container_create in Hrun.
    destruct (Prisma.string_input t); try (by injection Hrun as _ <-).
    destruct (Prisma.optional_string_input d);
      try (by injection Hrun as _ <-);
      rewrite run_bind in Hrun; simpl in Hrun;
      (destruct (Prisma.writable (db w) p); [|by injection Hrun as _ <-]);
      (destruct (containers (db w) !! id);
       [by injection Hrun as _ <-|rewrite run_bind in Hrun; discriminate]).
  - simpl. eapply keyed_container_create; eauto.
Qed.

Lemma item_create_keyed fk id t p c :
  keeps keyed_after (Prisma.item_create fk id t p c).
Proof.
  intros w Hk.
  destruct (Prisma.item_create fk id t p c w) as [[e|it] w'] eqn:Hrun.
  - simpl. unfold Prisma.item_create in Hrun.
    destruct (Prisma.string_input t); try (by injection Hrun as _ <-).
    rewrite run_bind in Hrun; simpl in Hrun.
    destruct (Prisma.writable (db w) p); [|by injection Hrun as _ <-].
    destruct (items (db w) !! id); [by injection Hrun as _ <-|].
    destruct (_ && _); [by injection Hrun as _ <-|].
    rewrite run_bind in Hrun; discriminate.
  - simpl. eapply keyed_item_create; eauto.
Qed.

(** X10.  Every route and both socket handlers keep the tables keyed: if
    each row is stored under its own id before a request, whatever the
    request, each row is stored under its own id after it. *)
Theorem routes_keep_store_keyed (w : World) :
  keyed (db w) ->
  keyed (db (get_containers w).2) /\
  (forall id, keyed (db (get_containers_id id w).2)) /\
  (forall uuid body, keyed (db (post_containers uuid body w).2)) /\
  (forall id body, keyed (db (patch_containers_id id body w).2)) /\
  (forall action id, keyed (db (delete_containers_id action id w).2)) /\
  (forall fk uuid cid body, keyed (db (post_containers_items fk uuid cid body w).2)) /\
  (forall fk id body, keyed (db (patch_items_id fk id body w).2)) /\
  (forall id, keyed (db (delete_items_id id w).2)) /\
  (forall fk body, keyed (db (patch_containers_order_items fk body w).2)) /\
  (forall socket, keyed (db (on_requestInitialData socket w).2)) /\
  (forall fk payload, keyed (db (on_updatedItems fk payload w).2)).
Proof.
  intros Hk.
  assert (Hgo : forall {A} (m : M A), keeps keyed_after m -> keyed (db (m w).2))
    by (intros A m Hm; by apply Hm).
  split.
  { intros; apply Hgo.
    apply (keeps_try_catch _); [|intros; apply (keeps_ret _)].
    apply (keeps_bind _); [apply (keeps_container_findMany _)|].
    intros; apply (keeps_ret _). }
  split.
  { intros; apply Hgo.
    apply (keeps_validate _), (keeps_try_catch _); [|intros; apply (keeps_ret _)].
    apply (keeps_bind _); [apply (keeps_get_db _)|]. intros s.
    destruct (containers s !! id); apply (keeps_ret _). }
  split.
  { intros; apply Hgo.
    apply (keeps_validate _), (keeps_bind _); [apply (keeps_prop _)|]. intros t.
    apply (keeps_bind _); [apply (keeps_prop _)|]. intros d.
    apply (keeps_try_catch _); [|intros; apply (keeps_ret _)].
    apply (keeps_bind _); [apply (keeps_container_findFirst_last _)|]. intros l.
    apply (keeps_bind _); [apply container_create_keyed|].
    intros; apply (keeps_ret _). }
  split.
  { intros; apply Hgo.
    apply (keeps_validate _), (keeps_bind _); [apply (keeps_prop _)|]. intros t.
    apply (keeps_bind _); [apply (keeps_prop _)|]. intros d.
    apply (keeps_bind _); [apply (keeps_prop _)|]. intros p.
    apply (keeps_try_catch _); [|intros; apply (keeps_ret _)].
    apply (keeps_bind _); [apply container_update_keyed|].
    intros; apply (keeps_ret _). }
  split.
  { intros; apply Hgo.
    apply (keeps_validate_bare _), (keeps_try_catch _);
      [|intros; apply (keeps_ret _)].
    apply (keeps_bind _); [apply container_delete_keyed|].
    intros; apply (keeps_ret _). }
  split.
  { intros; apply Hgo.
    apply (keeps_validate _), (keeps_bind _); [apply (keeps_prop _)|]. intros t.
    apply (keeps_try_catch _); [|intros; apply (keeps_ret _)].
    apply (keeps_bind _); [apply (keeps_item_findFirst_last _)|]. intros l.
    apply (keeps_bind _); [apply item_create_keyed|].
    intros; apply (keeps_ret _). }
  split.
  { intros; apply Hgo.
    apply (keeps_validate _), (keeps_bind _); [apply (keeps_prop _)|]. intros t.
    apply (keeps_bind _); [apply (keeps_prop _)|]. intros p.
    apply (keeps_bind _); [apply (keeps_prop _)|]. intros c.
    apply (keeps_try_catch _); [|intros; apply (keeps_ret _)].
    apply (keeps_bind _); [apply item_update_keyed|].
    intros; apply (keeps_ret _). }
  split.
  { intros; apply Hgo.
    apply (keeps_validate_bare _), (keeps_try_catch _);
      [|intros; apply (keeps_ret _)].
    apply (keeps_bind _); [apply item_delete_keyed|].
    intros; apply (keeps_ret _). }
  split.
  { intros; apply Hgo.
    apply (keeps_validate _), (keeps_bind _); [apply (keeps_prop _)|]. intros c.
    apply (keeps_try_catch _); [|intros; apply (keeps_ret _)].
    apply (keeps_bind _); [|intros; apply (keeps_ret _)].
    apply (keeps_transaction _), (keeps_reorder_loops _).
    intros; apply item_update_keyed. }
  split.
  { intros; apply Hgo.
    apply (keeps_bind _); [apply (keeps_container_findMany _)|].
    intros; apply (keeps_socket_emit _). }
  intros; apply Hgo.
  apply (keeps_bind _).
  - apply (keeps_transaction _), (keeps_reorder_loops _).
    intros; apply item_update_keyed.
  - intros _. apply (keeps_bind _); [apply (keeps_container_findMany _)|].
    intros; apply (keeps_io_emit _).
Qed.

Lemma routes_keep_store_keyed_witness :
  keyed (db example_world) /\
  keyed (db (on_updatedItems true (encode_batch example_batch) example_world).2).
Proof.
  split; [exact keyed_example_store|].
  destruct (routes_keep_store_keyed example_world keyed_example_store)
    as (_ & _ & _ & _ & _ & _ & _ & _ & _ & _ & H).
  apply H.
Defined.

(** ** Creating rows *)

Lemma container_create_cases id t d p w :
  (exists e, Prisma.container_create id t d p w = (inl e, w)) \/
  (exists c,
     containers (db w) !! id = None /\
     container_id c = id /\ container_position c = p /\
     Prisma.container_create id t d p w =
     (inr c, set_db (set_containers (<[id := c]> (containers (db w))) (db w)) w)).
Proof.
  destruct (Prisma.container_create id t d p w) as [[e|c] w'] eqn:Hrun.
  - left. exists e. f_equal. unfold Prisma.container_create in Hrun.
    destruct (Prisma.string_input t); try (by injection Hrun as _ <-).
    destruct (Prisma.optional_string_input d);
      try (by injection Hrun as _ <-);
      rewrite run_bind in Hrun; simpl in Hrun;
      (destruct (Prisma.writable (db w) p); [|by injection Hrun as _ <-]);
      (destruct (containers (db w) !! id);
       [by injection Hrun as _ <-|rewrite run_bind in Hrun; discriminate]).
  - right. exists c.
    apply container_create_run in Hrun as (Hfree & Hid & Hpos & ->). done.
Qed.

Lemma item_create_cases fk id t p cid w :
  (exists e, Prisma.item_create fk id t p cid w = (inl e, w)) \/
  (exists it,
     items (db w) !! id = None /\
     item_id it = id /\ item_position it = p /\ item_containerId it = cid /\
     Prisma.item_create fk id t p cid w =
     (inr it, set_db (set_items (<[id := it]> (items (db w))) (db w)) w)).
Proof.
  destruct (Prisma.item_create fk id t p cid w) as [[e|it] w'] eqn:Hrun.
  - left. exists e. f_equal. unfold Prisma.item_create in Hrun.
    destruct (Prisma.string_input t); try (by injection Hrun as _ <-).
    rewrite run_bind in Hrun; simpl in Hrun.
    destruct (Prisma.writable (db w) p); [|by injection Hrun as _ <-].
    destruct (items (db w) !! id); [by injection Hrun as _ <-|].
    destruct (_ && _); [by injection Hrun as _ <-|].
    rewrite run_bind in Hrun; discriminate.
  - right. exists it.
    apply item_create_run in Hrun as (Hfree & Hid & Hpos & Hcid & ->). done.
Qed.

Lemma post_containers_cases uuid body w :
  (exists r, post_containers uuid body w = (r, w) /\
             forall c, r <> inr (mkResponse 201 (ContainerJson c))) \/
  (exists c,
     containers (db w) !! container_id c = None /\
     container_id c = "container-" +:+ generateUUID uuid /\
     container_position c = next_container_position (db w) /\
     post_containers uuid body w =
     (inr (mkResponse 201 (ContainerJson c)),
      set_db (set_containers (<[container_id c := c]> (containers (db w))) (db w)) w)).
Proof.
  unfold post_containers, validate.
  destruct (_ ++ _); [|left; eexists; split; [reflexivity|discriminate]].
  destruct (prop_cases body w) as [Hp|Hp]; rewrite run_bind, Hp;
    [left; eexists; split; [reflexivity|discriminate]|].
  rewrite run_bind, Hp.
  unfold try_catch, Prisma.container_findFirst_last. rewrite !run_bind. simpl.
  rewrite run_bind.
  destruct (container_create_cases ("container-" +:+ generateUUID uuid)
              (Validator.select "title" body)
              (Validator.select "description" body)
              (next_container_position (db w)) w)
    as [[e He]|(c & Hfree & Hid & Hpos & Hrun)];
    unfold next_container_position in *.
  - rewrite He. left. eexists; split; [reflexivity|discriminate].
  - rewrite Hrun. right. exists c. rewrite Hid. done.
Qed.

Lemma post_containers_items_cases fk uuid cid body w :
  (exists r, post_containers_items fk uuid cid body w = (r, w) /\
             forall it, r <> inr (mkResponse 201 (ItemJson it))) \/
  (exists it,
     items (db w) !! item_id it = None /\
     item_id it = "item-" +:+ generateUUID uuid /\
     item_containerId it = cid /\
     item_position it = next_item_position (db w) cid /\
     post_containers_items fk uuid cid body w =
     (inr (mkResponse 201 (ItemJson it)),
      set_db (set_items (<[item_id it := it]> (items (db w))) (db w)) w)).
Proof.
  unfold post_containers_items, validate.
  destruct (_ ++ _); [|left; eexists; split; [reflexivity|discriminate]].
  destruct (prop_cases body w) as [Hp|Hp]; rewrite run_bind, Hp;
    [left; eexists; split; [reflexivity|discriminate]|].
  unfold try_catch, Prisma.item_findFirst_last. rewrite !run_bind. simpl.
  rewrite run_bind.
  destruct (item_create_cases fk ("item-" +:+ generateUUID uuid)
              (Validator.select "title" body)
              (next_item_position (db w) cid) cid w)
    as [[e He]|(it & Hfree & Hid & Hpos & Hcid & Hrun)];
    unfold next_item_position in *.
  - rewrite He. left. eexists; split; [reflexivity|discriminate].
  - rewrite Hrun. right. exists it. rewrite Hid. done.
Qed.

(** X11.  A create route never changes or removes a row.  Either
    [POST /api/containers] answers 201 and the containers table is the old
    one with the new container added under an id that was free, the items
    table untouched; or the world is as before.  Likewise
    [POST /api/containers/:containerId/items] with the two tables swapped. *)
Theorem creates_add_one_row :
  (forall uuid body w,
     let r := post_containers uuid body w in
     (exists c,
        r.1 = inr (mkResponse 201 (ContainerJson c)) /\
        containers (db w) !! container_id c = None /\
        containers (db r.2) = <[container_id c := c]> (containers (db w)) /\
        items (db r.2) = items (db w) /\
        sockets r.2 = sockets w /\ outbox r.2 = outbox w) \/
     ((forall c, r.1 <> inr (mkResponse 201 (ContainerJson c))) /\ r.2 = w)) /\
  (forall fk uuid cid body w,
     let r := post_containers_items fk uuid cid body w in
     (exists it,
        r.1 = inr (mkResponse 201 (ItemJson it)) /\
        items (db w) !! item_id it = None /\
        items (db r.2) = <[item_id it := it]> (items (db w)) /\
        containers (db r.2) = containers (db w) /\
        sockets r.2 = sockets w /\ outbox r.2 = outbox w) \/
     ((forall it, r.1 <> inr (mkResponse 201 (ItemJson it))) /\ r.2 = w)).
Proof.
  split.
  - intros uuid body w r. subst r.
    destruct (post_containers_cases uuid body w)
      as [(r & -> & Hr)|(c & Hfree & _ & _ & ->)]; [right; done|].
    left. exists c. done.
  - intros fk uuid cid body w r. subst r.
    destruct (post_containers_items_cases fk uuid cid body w)
      as [(r & -> & Hr)|(it & Hfree & _ & _ & _ & ->)]; [right; done|].
    left. exists it. done.
Qed.

Lemma next_item_position_after (s : Store) (cid : string) (it : Item) :
  items s !! item_id it = None ->
  item_containerId it = cid ->
  item_position it = next_item_position s cid ->
  next_item_position (set_items (<[item_id it := it]> (items s)) s) cid
  = item_position it + 1.
Proof.
  intros Hfree Hcid Hpos. unfold next_item_position in *. simpl.
  set (old := filter _ (Prisma.rows (items s))) in *.
  set (new := filter _ (Prisma.rows (<[item_id it := it]> (items s)))).
  assert (Hnew : forall x, x ∈ new <-> x = it \/ x ∈ old).
  { intros x. unfold new, old. rewrite !list_elem_of_filter, !elem_of_rows. split.
    - intros [Hc [k Hk]]. apply lookup_insert_Some in Hk as [[_ <-]|[_ Hk]];
        [by left|right; eauto].
    - intros [->|[Hc [k Hk]]].
      + split; [exact Hcid|]. exists (item_id it). apply lookup_insert_eq.
      + split; [exact Hc|]. exists k. rewrite lookup_insert_ne; [exact Hk|].
        intros <-. congruence. }
  assert (Hold : forall x, x ∈ old -> item_position x < item_position it).
  { intros x Hx. rewrite Hpos.
    destruct (head (Prisma.orderBy_desc item_position old)) as [l|] eqn:Hl.
    - apply head_orderBy_desc_Some in Hl as [_ Hmax].
      specialize (Hmax x Hx). lia.
    - apply head_orderBy_desc_None in Hl. rewrite Hl in Hx.
      by apply elem_of_nil in Hx. }
  destruct (head (Prisma.orderBy_desc item_position new)) as [l|] eqn:Hl.
  - apply head_orderBy_desc_Some in Hl as [Hin Hmax].
    apply Hnew in Hin as [->|Hin]; [reflexivity|].
    specialize (Hold l Hin).
    assert (item_position it <= item_position l); [|lia].
    apply Hmax, Hnew. by left.
  - apply head_orderBy_desc_None in Hl.
    assert (it ∈ new) as Hin by (apply Hnew; by left).
    rewrite Hl in Hin. by apply elem_of_nil in Hin.
Qed.

Lemma next_container_position_after (s : Store) (c : Container) :
  containers s !! container_id c = None ->
  container_position c = next_container_position s ->
  next_container_position
    (set_containers (<[container_id c := c]> (containers s)) s)
  = container_position c + 1.
Proof.
  intros Hfree Hpos. unfold next_container_position in *. simpl.
  set (old := Prisma.rows (containers s)) in *.
  set (new := Prisma.rows (<[container_id c := c]> (containers s))).
  assert (Hnew : forall x, x ∈ new <-> x = c \/ x ∈ old).
  { intros x. unfold new, old. rewrite !elem_of_rows. split.
    - intros [k Hk]. apply lookup_insert_Some in Hk as [[_ <-]|[_ Hk]];
        [by left|right; eauto].
    - intros [->|[k Hk]].
      + exists (container_id c). apply lookup_insert_eq.
      + exists k. rewrite lookup_insert_ne; [exact Hk|].
        intros <-. congruence. }
  assert (Hold : forall x, x ∈ old -> container_position x < container_position c).
  { intros x Hx. rewrite Hpos.
    destruct (head (Prisma.orderBy_desc container_position old)) as [l|] eqn:Hl.
    - apply head_orderBy_desc_Some in Hl as [_ Hmax].
      specialize (Hmax x Hx). lia.
    - apply head_orderBy_desc_None in Hl. rewrite Hl in Hx.
      by apply elem_of_nil in Hx. }
  destruct (head (Prisma.orderBy_desc container_position new)) as [l|] eqn:Hl.
  - apply head_orderBy_desc_Some in Hl as [Hin Hmax].
    apply Hnew in Hin as [->|Hin]; [reflexivity|].
    specialize (Hold l Hin).
    assert (container_position c <= container_position l); [|lia].
    apply Hmax, Hnew. by left.
  - apply head_orderBy_desc_None in Hl.
    assert (c ∈ new) as Hin by (apply Hnew; by left).
    rewrite Hl in Hin. by apply elem_of_nil in Hin.
Qed.

(** X12.  Creates served one after the other get consecutive positions:
    when two [POST /api/containers] requests in a row are both answered
    201, the second container is placed one above the first; the same for
    two items created in a row in the same container. *)
Theorem consecutive_creates_get_consecutive_positions :
  (forall uuid1 body1 uuid2 body2 w c1 w1 c2 w2,
     post_containers uuid1 body1 w
     = (inr (mkResponse 201 (ContainerJson c1)), w1) ->
     post_containers uuid2 body2 w1
     = (inr (mkResponse 201 (ContainerJson c2)), w2) ->
     container_position c2 = container_position c1 + 1) /\
  (forall fk uuid1 body1 uuid2 body2 cid w it1 w1 it2 w2,
     post_containers_items fk uuid1 cid body1 w
     = (inr (mkResponse 201 (ItemJson it1)), w1) ->
     post_containers_items fk uuid2 cid body2 w1
     = (inr (mkResponse 201 (ItemJson it2)), w2) ->
     item_position it2 = item_position it1 + 1).
Proof.
  split.
  - intros uuid1 body1 uuid2 body2 w c1 w1 c2 w2 H1 H2.
    destruct (post_containers_cases uuid1 body1 w)
      as [(r & Hr & Hno)|(c & Hfree & _ & Hpos & Hrun)];
      [rewrite Hr in H1; injection H1 as -> _; by destruct (Hno c1)|].
    rewrite Hrun in H1. injection H1 as -> <-.
    destruct (post_containers_cases uuid2 body2
                (set_db (set_containers (<[container_id c1 := c1]>
                           (containers (db w))) (db w)) w))
      as [(r & Hr & Hno)|(c & _ & _ & Hpos2 & Hrun2)];
      [rewrite Hr in H2; injection H2 as -> _; by destruct (Hno c2)|].
    rewrite Hrun2 in H2. injection H2 as -> _.
    rewrite Hpos2. simpl. by apply next_container_position_after.
  - intros fk uuid1 body1 uuid2 body2 cid w it1 w1 it2 w2 H1 H2.
    destruct (post_containers_items_cases fk uuid1 cid body1 w)
      as [(r & Hr & Hno)|(it & Hfree & _ & Hcid & Hpos & Hrun)];
      [rewrite Hr in H1; injection H1 as -> _; by destruct (Hno it1)|].
    rewrite Hrun in H1. injection H1 as -> <-.
    destruct (post_containers_items_cases fk uuid2 cid body2
                (set_db (set_items (<[item_id it1 := it1]>
                           (items (db w))) (db w)) w))
      as [(r & Hr & Hno)|(it & _ & _ & _ & Hpos2 & Hrun2)];
      [rewrite Hr in H2; injection H2 as -> _; by destruct (Hno it2)|].
    rewrite Hrun2 in H2. injection H2 as -> _.
    rewrite Hpos2. simpl. by apply next_item_position_after.
Qed.

Lemma consecutive_creates_get_consecutive_positions_witness :
  (exists c1 w1 c2 w2,
     post_containers first_uuid (VObj [("title", VStr "Doing")]) example_world
     = (inr (mkResponse 201 (ContainerJson c1)), w1) /\
     post_containers second_uuid (VObj [("title", VStr "Review")]) w1
     = (inr (mkResponse 201 (ContainerJson c2)), w2) /\
     container_position c1 = 2 /\ container_position c2 = 3) /\
  (exists it1 w1 it2 w2,
     post_containers_items true first_uuid "A" (VObj [("title", VStr "first")])
       empty_container_world
     = (inr (mkResponse 201 (ItemJson it1)), w1) /\
     post_containers_items true second_uuid "A" (VObj [("title", VStr "second")]) w1
     = (inr (mkResponse 201 (ItemJson it2)), w2) /\
     item_position it1 = 0 /\ item_position it2 = 1).
Proof.
  split.
  - assert (exists c1 w1 c2 w2,
              post_containers first_uuid (VObj [("title", VStr "Doing")]) example_world
              = (inr (mkResponse 201 (ContainerJson c1)), w1) /\
              post_containers second_uuid (VObj [("title", VStr "Review")]) w1
              = (inr (mkResponse 201 (ContainerJson c2)), w2) /\
              container_position c1 = 2)
      as (c1 & w1 & c2 & w2 & H1 & H2 & Hp1)
      by (eexists _, _, _, _; split; [|split]; vm_compute; reflexivity).
    exists c1, w1, c2, w2. split; [exact H1|]. split; [exact H2|].
    split; [exact Hp1|].
    rewrite (proj1 consecutive_creates_get_consecutive_positions
               _ _ _ _ _ _ _ _ _ H1 H2), Hp1. reflexivity.
  - assert (exists it1 w1 it2 w2,
              post_containers_items true first_uuid "A"
                (VObj [("title", VStr "first")]) empty_container_world
              = (inr (mkResponse 201 (ItemJson it1)), w1) /\
              post_containers_items true second_uuid "A"
                (VObj [("title", VStr "second")]) w1
              = (inr (mkResponse 201 (ItemJson it2)), w2) /\
              item_position it1 = 0)
      as (it1 & w1 & it2 & w2 & H1 & H2 & Hp1)
      by (eexists _, _, _, _; split; [|split]; vm_compute; reflexivity).
    exists it1, w1, it2, w2. split; [exact H1|]. split; [exact H2|].
    split; [exact Hp1|].
    rewrite (proj2 consecutive_creates_get_consecutive_positions
               _ _ _ _ _ _ _ _ _ _ _ H1 H2), Hp1. reflexivity.
Defined.

(** ** Updating one row *)

(** X13.  An update of one row touches no other row.  Whatever
    [PATCH /api/items/:id] is sent and whatever it answers, every item
    stored under another id and the whole containers table are as before,
    no item appears or disappears, and the row under [id] keeps its id;
    likewise for [PATCH /api/containers/:id] and the containers table. *)
Theorem update_touches_one_row :
  (forall fk id body w,
     let w' := (patch_items_id fk id body w).2 in
     containers (db w') = containers (db w) /\
     (forall k, k <> id -> items (db w') !! k = items (db w) !! k) /\
     option_Forall2 (fun a b => item_id b = item_id a)
       (items (db w) !! id) (items (db w') !! id)) /\
  (forall id body w,
     let w' := (patch_containers_id id body w).2 in
     items (db w') = items (db w) /\
     (forall k, k <> id -> containers (db w') !! k = containers (db w) !! k) /\
     option_Forall2 (fun a b => container_id b = container_id a)
       (containers (db w) !! id) (containers (db w') !! id)).
Proof.
  assert (Hsame_i : forall w id,
            option_Forall2 (fun a b => item_id b = item_id a)
              (items (db w) !! id) (items (db w) !! id))
    by (intros w id; destruct (items (db w) !! id); constructor; done).
  assert (Hsame_c : forall w id,
            option_Forall2 (fun a b => container_id b = container_id a)
              (containers (db w) !! id) (containers (db w) !! id))
    by (intros w id; destruct (containers (db w) !! id); constructor; done).
  split.
  - intros fk id body w. unfold patch_items_id, validate. simpl.
    destruct (patch_items_id_chains id body); [|done].
    destruct (prop_cases body w) as [Hp|Hp]; rewrite run_bind, Hp; [done|].
    rewrite run_bind, Hp, run_bind, Hp. unfold try_catch. rewrite run_bind.
    destruct (item_update_cases fk id (Validator.select "title" body)
                (Validator.select "position" body)
                (Validator.select "containerId" body) w)
      as [[e ->]|(it & Hit & ->)]; [done|].
    simpl. split; [reflexivity|]. split.
    + intros k Hk. by rewrite lookup_insert_ne.
    + rewrite Hit, lookup_insert_eq. by constructor.
  - intros id body w. unfold patch_containers_id, validate. simpl.
    destruct (patch_containers_id_chains id body); [|done].
    destruct (prop_cases body w) as [Hp|Hp]; rewrite run_bind, Hp; [done|].
    rewrite run_bind, Hp, run_bind, Hp. unfold try_catch. rewrite run_bind.
    destruct (container_update_cases id (Validator.select "title" body)
                (Validator.select "description" body)
                (Validator.select "position" body) w)
      as [[e ->]|(c & Hc & ->)]; [done|].
    simpl. split; [reflexivity|]. split.
    + intros k Hk. by rewrite lookup_insert_ne.
    + rewrite Hc, lookup_insert_eq. by constructor.
Qed.

(** X14.  When [PATCH /api/items/:id] passes its chains for a stored
    item, [position] is absent or a JSON number that can be written (an
    exact integer in the range of the column), and the foreign key, where
    enforced, finds the container named by [containerId], the route
    answers 200 with the updated row and stores it: every key the body
    supplies has the supplied value in that row. *)
Theorem patch_item_writes_supplied_fields (fk : bool) (id : string)
    (fields : list (string * value)) (w : World) (it : Item) :
  patch_items_id_chains id (VObj fields) = [] ->
  items (db w) !! id = Some it ->
  Prisma.is_rejected
    (Prisma.int_input (Prisma.writable (db w)) (assoc "position" fields))
  = false ->
  Prisma.fk_violation fk (db w) (Prisma.string_input (assoc "containerId" fields))
  = false ->
  exists it',
    patch_items_id fk id (VObj fields) w
    = (inr (mkResponse 200 (ItemJson it')),
       set_db (set_items (<[id := it']> (items (db w))) (db w)) w) /\
    item_id it' = item_id it /\
    (forall t, assoc "title" fields = VStr t -> item_title it' = t) /\
    (forall p, assoc "position" fields = VNum p -> item_position it' = p) /\
    (forall c, assoc "containerId" fields = VStr c -> item_containerId it' = c).
Proof.
  intros Hok Hit Hpos Hfk. unfold patch_items_id. rewrite Hok. simpl.
  assert (Ht : Prisma.is_rejected (Prisma.string_input (assoc "title" fields)) = false).
  { unfold patch_items_id_chains in Hok.
    apply app_eq_nil in Hok as [_ Hok]. apply app_eq_nil in Hok as [Hok _].
    simpl in Hok. destruct (assoc "title" fields); try reflexivity;
      by vm_compute in Hok. }
  assert (Hc : Prisma.is_rejected
                 (Prisma.string_input (assoc "containerId" fields)) = false).
  { destruct (assoc "containerId" fields) eqn:Hv; try reflexivity;
      unfold patch_items_id_chains in Hok;
      apply app_eq_nil in Hok as [_ Hok]; apply app_eq_nil in Hok as [_ Hok];
      apply app_eq_nil in Hok as [_ Hok]; simpl in Hok; rewrite Hv in Hok;
      unfold Validator.optional, Validator.chain in Hok;
      rewrite filter_cons in Hok; by rewrite decide_True in Hok. }
  run. unfold Prisma.item_update. rewrite run_bind. simpl.
  rewrite Ht, Hpos, Hc. simpl. rewrite Hit, Hfk. rewrite run_bind. simpl.
  eexists. split; [reflexivity|]. simpl. split; [reflexivity|].
  split; [intros x ->; reflexivity|].
  split; [|intros x ->; reflexivity].
  intros x Hx. rewrite Hx in Hpos |- *. simpl in *.
  destruct (Prisma.writable (db w) x); [reflexivity|discriminate].
Qed.

Lemma patch_item_writes_supplied_fields_witness :
  patch_items_id_chains "item-1" (VObj [("position", VNum 7)]) = [] /\
  items (db short_id_world) !! "item-1" = Some (mkItem "item-1" "one" 3 "col-1") /\
  exists it' w',
    patch_items_id true "item-1" (VObj [("position", VNum 7)]) short_id_world
    = (inr (mkResponse 200 (ItemJson it')), w') /\
    item_position it' = 7.
Proof.
  assert (H1 : patch_items_id_chains "item-1" (VObj [("position", VNum 7)]) = [])
    by reflexivity.
  assert (H2 : items (db short_id_world) !! "item-1"
               = Some (mkItem "item-1" "one" 3 "col-1")) by reflexivity.
  split; [exact H1|]. split; [exact H2|].
  destruct (patch_item_writes_supplied_fields true "item-1"
              [("position", VNum 7)] short_id_world _ H1 H2 eq_refl eq_refl)
    as (it' & Hrun & _ & _ & Hp & _).
  exists it'. eexists. split; [exact Hrun|]. exact (Hp 7 eq_refl).
Defined.

(** A position that cannot be written is refused by the client and the
    request answered 500; from 10^21 on, where a number prints in
    exponent form, it is refused by [isInt()] and answered 400.  The row
    is left as it is. *)
Example patch_item_position_out_of_range :
  patch_items_id true "item-1" (VObj [("position", VNum (2 ^ 53))]) short_id_world
  = (inr update_item_failure, short_id_world) /\
  patch_items_id true "item-1" (VObj [("position", VNum (10 ^ 21))]) short_id_world
  = (inr (mkResponse 400 (ErrorsJson ["position"])), short_id_world).
Proof. split; vm_compute; reflexivity. Qed.

(** X15.  A [position] sent as a string passes the [isInt()] chain when
    the string spells an integer, since nothing converts it, and is then
    refused by the client: both [PATCH] routes answer the generic 500 and
    leave the world as it is, whether or not the row exists. *)
Theorem position_as_string_is_500 :
  (forall fk id fields w s,
     patch_items_id_chains id (VObj fields) = [] ->
     assoc "position" fields = VStr s ->
     patch_items_id fk id (VObj fields) w = (inr update_item_failure, w)) /\
  (forall id fields w s,
     patch_containers_id_chains id (VObj fields) = [] ->
     assoc "position" fields = VStr s ->
     patch_containers_id id (VObj fields) w = (inr update_container_failure, w)).
Proof.
  split.
  - intros fk id fields w s Hok Hs. unfold patch_items_id. rewrite Hok. run.
    unfold Prisma.item_update. rewrite run_bind, Hs. simpl.
    rewrite orb_true_r. reflexivity.
  - intros id fields w s Hok Hs. unfold patch_containers_id. rewrite Hok. run.
    unfold Prisma.container_update. rewrite run_bind, Hs. simpl.
    rewrite orb_true_r. reflexivity.
Qed.

Lemma position_as_string_is_500_witness :
  (patch_items_id_chains "item-1" (VObj [("position", VStr "5")]) = [] /\
   patch_items_id true "item-1" (VObj [("position", VStr "5")]) short_id_world
   = (inr update_item_failure, short_id_world)) /\
  (patch_containers_id_chains "col-1" (VObj [("position", VStr "-12")]) = [] /\
   patch_containers_id "col-1" (VObj [("position", VStr "-12")]) short_id_world
   = (inr update_container_failure, short_id_world)).
Proof.
  split.
  - assert (H : patch_items_id_chains "item-1" (VObj [("position", VStr "5")]) = [])
      by reflexivity.
    split; [exact H|].
    exact (proj1 position_as_string_is_500 true _ _ _ "5" H eq_refl).
  - assert (H : patch_containers_id_chains "col-1"
                  (VObj [("position", VStr "-12")]) = []) by reflexivity.
    split; [exact H|].
    exact (proj2 position_as_string_is_500 _ _ _ "-12" H eq_refl).
Defined.

(** Digits with leading zeros, with or without a sign, pass [isInt()]
    too and are answered 500 as well. *)
Example position_with_leading_zeros :
  patch_items_id_chains "item-1" (VObj [("position", VStr "007")]) = [] /\
  patch_items_id true "item-1" (VObj [("position", VStr "007")]) short_id_world
  = (inr update_item_failure, short_id_world) /\
  patch_items_id_chains "item-1" (VObj [("position", VStr "+05")]) = [] /\
  patch_items_id true "item-1" (VObj [("position", VStr "+05")]) short_id_world
  = (inr update_item_failure, short_id_world).
Proof. repeat split; vm_compute; reflexivity. Qed.

(** ** [generateUUID] *)

Lemma substring_0_length n s : (String.length (substring 0 n s) <= n)%nat.
Proof.
  revert s. induction n as [|n IH]; intros [|a s]; simpl; try lia.
  specialize (IH s). lia.
Qed.

Lemma has_dash_remove_dashes s : has_dash (remove_dashes s) = false.
Proof.
  induction s as [|a s IH]; simpl; [reflexivity|].
  destruct (Ascii.eqb a "-") eqn:Ha; simpl; [exact IH|].
  by rewrite Ha.
Qed.

Lemma has_dash_substring n s : has_dash s = false -> has_dash (substring 0 n s) = false.
Proof.
  revert s. induction n as [|n IH]; intros [|a s]; simpl; try done.
  intros [Ha Hs]%orb_false_elim. rewrite Ha. simpl. by apply IH.
Qed.

Lemma dashless_prefix_substring n s :
  dashless_prefix n s = true ->
  substring 0 n (remove_dashes s) = substring 0 n s.
Proof.
  revert s. induction n as [|n IH]; intros s.
  - intros _. by destruct (remove_dashes s), s.
  - destruct s as [|a s]; simpl; [done|].
    intros [Ha Hs]%andb_prop. apply negb_true_iff in Ha. rewrite Ha. simpl.
    by rewrite IH.
Qed.

(** X16.  Whatever string it is given, [generateUUID] returns at most
    eight characters and no dash. *)
Theorem generateUUID_short_and_dashless (uuid : string) :
  (String.length (generateUUID uuid) <= 8)%nat /\
  has_dash (generateUUID uuid) = false.
Proof.
  unfold generateUUID. split; [apply substring_0_length|].
  apply has_dash_substring, has_dash_remove_dashes.
Qed.

(** X17.  When the first eight characters of the UUID are there and none
    of them is a dash, as in every UUID in the 8-4-4-4-12 layout,
    [generateUUID] returns exactly those eight characters. *)
Theorem generateUUID_is_first_group (uuid : string) :
  dashless_prefix 8 uuid = true ->
  generateUUID uuid = substring 0 8 uuid /\
  String.length (generateUUID uuid) = 8%nat.
Proof.
  intros H. unfold generateUUID. rewrite (dashless_prefix_substring _ _ H).
  split; [vm_compute; reflexivity|].
  clear -H. revert H. generalize 8%nat.
  intros n. revert uuid. induction n as [|n IH]; intros [|a s]; simpl; try done.
  intros [_ Hs]%andb_prop. by rewrite IH.
Qed.

Lemma generateUUID_is_first_group_witness :
  dashless_prefix 8 example_uuid = true /\
  generateUUID example_uuid = "123e4567".
Proof.
  assert (H : dashless_prefix 8 example_uuid = true) by reflexivity.
  split; [exact H|].
  rewrite (proj1 (generateUUID_is_first_group example_uuid H)). reflexivity.
Defined.

(** ** The order of the entries of a batch *)

Lemma last_entry_Permutation us us' k :
  NoDup (map (fun u : string * string * Z => u.1.1) us) ->
  us ≡ₚ us' -> last_entry us' k = last_entry us k.
Proof.
  intros Hnd Hp.
  assert (Hnd' : NoDup (map (fun u : string * string * Z => u.1.1) us')).
  { change (NoDup ((fun u : string * string * Z => u.1.1) <$> us')).
    rewrite <- Hp. exact Hnd. }
  destruct (last_entry us k) as [[c p]|] eqn:Hl.
  - apply last_entry_elem_of in Hl. rewrite Hp in Hl.
    by apply last_entry_distinct.
  - destruct (last_entry us' k) as [[c p]|] eqn:Hl'; [|reflexivity].
    apply last_entry_elem_of in Hl'. rewrite <- Hp in Hl'.
    apply last_entry_is_Some in Hl' as [e He]. congruence.
Qed.

(** X18.  For a valid batch that names every item at most once, the
    order of its entries does not matter: a batch with the same entries in
    another order, or grouped differently, is answered the same way and
    leaves the same world. *)
Theorem reorder_order_irrelevant (fk : bool) (B B' : batch) (w : World) :
  valid_batch (db w) B ->
  distinct_ids B ->
  updates B ≡ₚ updates B' ->
  patch_containers_order_items fk (reorder_request B') w
  = patch_containers_order_items fk (reorder_request B) w.
Proof.
  intros Hv Hnd Hp.
  assert (Hv' : valid_batch (db w) B').
  { intros iid cid p Hin. apply (Hv iid cid p). by rewrite Hp. }
  destruct (fitting_batch_dec (db w) B) as [Hf|(iid & cid & p & Hin & Hbad)].
  - assert (Hf' : fitting_batch (db w) B').
    { intros iid cid p Hin. apply (Hf iid cid p). by rewrite Hp. }
    rewrite !reorder_valid_run by assumption.
    f_equal. unfold reordered, set_db, set_items. do 2 f_equal.
    apply map_eq. intros k. rewrite !lookup_moves.
    by rewrite (last_entry_Permutation _ _ k Hnd Hp).
  - rewrite (reorder_missing_run fk B w)
      by (exists iid, cid, p; split; [exact Hin|by right]).
    rewrite (reorder_missing_run fk B' w); [reflexivity|].
    exists iid, cid, p. split; [by rewrite <- Hp|by right].
Qed.

Lemma reorder_order_irrelevant_witness :
  valid_batch (db example_world) example_batch /\
  distinct_ids example_batch /\
  patch_containers_order_items true
    (reorder_request [("B", []); ("A", [("i2", 2); ("i3", 0); ("i1", 1)])])
    example_world
  = patch_containers_order_items true (reorder_request example_batch) example_world.
Proof.
  assert (Hnd : distinct_ids example_batch) by exact distinct_example_batch.
  split; [exact valid_example_batch|]. split; [exact Hnd|].
  apply (reorder_order_irrelevant true example_batch _ example_world
           valid_example_batch Hnd).
  symmetry. exact (Permutation_cons_append [("i3", "A", 0); ("i1", "A", 1)] _).
Defined.

Lemma created_container_cannot_be_fetched_witness :
  exists c w',
    post_containers example_uuid (VObj [("title", VStr "Doing")]) example_world
    = (inr (mkResponse 201 (ContainerJson c)), w') /\
    get_containers_id (container_id c) w' = (inr invalid_id, w').
Proof.
  assert (exists c w',
            post_containers example_uuid (VObj [("title", VStr "Doing")]) example_world
            = (inr (mkResponse 201 (ContainerJson c)), w'))
    as (c & w' & H) by (eexists _, _; vm_compute; reflexivity).
  exists c, w'. split; [exact H|].
  exact (created_container_cannot_be_fetched _ _ _ _ _ H).
Defined.

(** ** Where a new row is shown *)

Lemma sorted_last {A} (R : relation A) (l : list A) (x y : A) :
  StronglySorted R l -> x ∈ l -> last l = Some y -> x = y \/ R x y.
Proof.
  intros Hs Hx Hl. apply last_Some in Hl as [l' ->].
  apply elem_of_app in Hx as [Hx|Hx%list_elem_of_singleton]; [|by left].
  right. apply (StronglySorted_app_1_elem_of R l' [y]); [exact Hs|exact Hx|left].
Qed.

Lemma next_container_position_above s x :
  x ∈ Prisma.rows (containers s) ->
  container_position x < next_container_position s.
Proof.
  intros Hx. unfold next_container_position.
  destruct (head _) as [l|] eqn:Hl.
  - apply head_orderBy_desc_Some in Hl as [_ Hmax]. specialize (Hmax x Hx). lia.
  - apply head_orderBy_desc_None in Hl. rewrite Hl in Hx.
    by apply elem_of_nil in Hx.
Qed.

Lemma next_item_position_above s cid x :
  x ∈ Prisma.rows (items s) -> item_containerId x = cid ->
  item_position x < next_item_position s cid.
Proof.
  intros Hx Hc. unfold next_item_position.
  assert (x ∈ filter (fun it => item_containerId it = cid) (Prisma.rows (items s)))
    as Hin by (by apply list_elem_of_filter).
  destruct (head _) as [l|] eqn:Hl.
  - apply head_orderBy_desc_Some in Hl as [_ Hmax]. specialize (Hmax x Hin). lia.
  - apply head_orderBy_desc_None in Hl. rewrite Hl in Hin.
    by apply elem_of_nil in Hin.
Qed.

(** X19.  A new row goes to the end.  After [POST /api/containers] has
    answered 201, the new container is the last container of the
    snapshot; after [POST /api/containers/:containerId/items] has answered
    201, the new item is the last item the snapshot lists under that
    container. *)
Theorem created_row_is_shown_last :
  (forall uuid body w c w',
     post_containers uuid body w = (inr (mkResponse 201 (ContainerJson c)), w') ->
     fst <$> last (Prisma.board (db w')) = Some c) /\
  (forall fk uuid cid body w it w',
     post_containers_items fk uuid cid body w
     = (inr (mkResponse 201 (ItemJson it)), w') ->
     forall c its,
       (c, its) ∈ Prisma.board (db w') -> container_id c = cid ->
       last its = Some it).
Proof.
  split.
  - intros uuid body w c w' H.
    destruct (post_containers_cases uuid body w)
      as [(r & Hr & Hno)|(c0 & Hfree & _ & Hpos & Hrun)];
      [rewrite Hr in H; injection H as -> _; by destruct (Hno c)|].
    rewrite Hrun in H. injection H as -> <-. simpl.
    rewrite board_fmap, fmap_last, <- option_fmap_compose.
    set (l := Prisma.orderBy_asc _ _).
    assert (Hc : c ∈ l).
    { apply elem_of_orderBy_asc, elem_of_rows. exists (container_id c).
      apply lookup_insert_eq. }
    destruct (last l) as [y|] eqn:Hl;
      [|apply last_None in Hl; rewrite Hl in Hc; by apply elem_of_nil in Hc].
    simpl. f_equal.
    destruct (sorted_last _ l c y (orderBy_asc_sorted _ _) Hc Hl) as [->|Hle];
      [reflexivity|].
    apply last_Some_elem_of, elem_of_orderBy_asc, elem_of_rows in Hl as [k Hk].
    simpl in Hk. apply lookup_insert_Some in Hk as [[_ <-]|[_ Hk]]; [reflexivity|].
    assert (container_position y < next_container_position (db w))
      by (apply next_container_position_above, elem_of_rows; eauto).
    unfold Prisma.asc in Hle. lia.
  - intros fk uuid cid body w it w' H c its Hin Hcid.
    destruct (post_containers_items_cases fk uuid cid body w)
      as [(r & Hr & Hno)|(it0 & Hfree & _ & Hc & Hpos & Hrun)];
      [rewrite Hr in H; injection H as -> _; by destruct (Hno it)|].
    rewrite Hrun in H. injection H as -> <-.
    rewrite board_fmap in Hin.
    apply list_elem_of_fmap in Hin as (c' & [= -> ->] & _).
    rewrite Hcid. unfold Prisma.items_of. simpl.
    set (l := Prisma.orderBy_asc _ _).
    assert (Hit : it ∈ l).
    { apply elem_of_orderBy_asc, list_elem_of_filter. split; [exact Hc|].
      apply elem_of_rows. exists (item_id it). apply lookup_insert_eq. }
    destruct (last l) as [y|] eqn:Hl;
      [|apply last_None in Hl; rewrite Hl in Hit; by apply elem_of_nil in Hit].
    f_equal.
    destruct (sorted_last _ l it y (orderBy_asc_sorted _ _) Hit Hl) as [->|Hle];
      [reflexivity|].
    apply last_Some_elem_of, elem_of_orderBy_asc, list_elem_of_filter in Hl
      as [Hyc [k Hk]%elem_of_rows].
    simpl in Hk. apply lookup_insert_Some in Hk as [[_ <-]|[_ Hk]]; [reflexivity|].
    assert (item_position y < next_item_position (db w) cid)
      by (apply next_item_position_above; [apply elem_of_rows; eauto|exact Hyc]).
    unfold Prisma.asc in Hle. lia.
Qed.

Lemma created_row_is_shown_last_witness :
  exists c w',
    post_containers example_uuid (VObj [("title", VStr "Doing")]) example_world
    = (inr (mkResponse 201 (ContainerJson c)), w') /\
    fst <$> last (Prisma.board (db w')) = Some c.
Proof.
  assert (exists c w',
            post_containers example_uuid (VObj [("title", VStr "Doing")]) example_world
            = (inr (mkResponse 201 (ContainerJson c)), w'))
    as (c & w' & H) by (eexists _, _; vm_compute; reflexivity).
  exists c, w'. split; [exact H|].
  exact (proj1 created_row_is_shown_last _ _ _ _ _ H).
Defined.

(** X20.  A container that has been deleted is gone for the read route:
    once [DELETE /api/containers/:id] has answered 204,
    [GET /api/containers/:id] answers 404 for that id. *)
Theorem deleted_container_is_not_found (action : referential_action)
    (id : string) (w w' : World) :
  delete_containers_id action id w = (inr (Bare 204), w') ->
  get_containers_id id w'
  = (inr (mkResponse 404 (ErrorJson "Container not found")), w').
Proof.
  unfold delete_containers_id, validate_bare, get_containers_id, validate.
  destruct (id_param id); [|discriminate].
  unfold try_catch. rewrite !run_bind.
  destruct (container_delete_cases action id w)
    as [[_ ->]|(c & _ & [[e ->]|(its' & -> & _)])]; try discriminate.
  intros [= <-]. simpl. by rewrite lookup_delete_eq.
Qed.

Lemma deleted_container_is_not_found_witness :
  exists w',
    delete_containers_id OnDeleteNone "col-1" short_id_world = (inr (Bare 204), w') /\
    get_containers_id "col-1" w'
    = (inr (mkResponse 404 (ErrorJson "Container not found")), w').
Proof.
  assert (exists w',
            delete_containers_id OnDeleteNone "col-1" short_id_world
            = (inr (Bare 204), w'))
    as (w' & H) by (eexists; vm_compute; reflexivity).
  exists w'. split; [exact H|].
  exact (deleted_container_is_not_found _ _ _ _ H).
Defined.
